(** * Driver portal: transfer workflow, overdue reminders and the WhatsApp adapter

    A shallow embedding of these parts of the repository:

    - the [DriverNotifications] React component (airport-transfer list,
      accept / decline / complete handlers, overdue-payment reminders and
      the unread counter), with the hosted database it talks to modelled
      as an explicit [Backend] value that the handlers read and update;
    - the [send-whatsapp] edge function, a stateless handler from a request
      and its environment (token, upstream gateway) to a response;
    - the search, filter and pagination of the [TransactionHistory]
      component and the profile lookup of [ProfilePage].

    JavaScript strings are modelled by [string], one [ascii] per code unit
    below 256.  React state is a record threaded through the handlers. *)

From Stdlib Require Import ZArith List String Ascii Bool Lia DecimalString.
Import ListNotations.
Open Scope string_scope.
Open Scope Z_scope.
Set Warnings "-register-all".

(** ** JavaScript runtime helpers *)

Module Js.

(** White space removed by [String.prototype.trim], restricted to the code
    units below 256: TAB, LF, VT, FF, CR, SPACE and NBSP. *)
Definition is_white_space (c : ascii) : bool :=
  let n := N_of_ascii c in
  ((9 <=? n) && (n <=? 13) || (n =? 32) || (n =? 160))%N.

Fixpoint trimStart (s : string) : string :=
  match s with
  | EmptyString => EmptyString
  | String c s' => if is_white_space c then trimStart s' else s
  end.

Fixpoint trimEnd (s : string) : string :=
  match s with
  | EmptyString => EmptyString
  | String c s' =>
      let r := trimEnd s' in
      if is_white_space c && (r =? "")%string then EmptyString else String c r
  end.

Definition trim (s : string) : string := trimEnd (trimStart s).

(** [Number.prototype.toString] on an integer-valued number. *)
Definition string_of_Z (z : Z) : string := NilZero.string_of_int (Z.to_int z).

(** [Math.ceil (a / b)] for integers [a] and [b > 0].  The two operands of
    the only call site are a difference of millisecond time stamps and
    86400000: for dates of the common era the rounding of the double
    quotient is far smaller than 1/86400000, the least distance of an
    inexact quotient to an integer, so the ceiling is the exact one. *)
Definition ceil_div (a b : Z) : Z := - ((- a) / b).

(** Lower-casing of the ASCII letters, the case folding of [ILIKE]. *)
Definition lower (c : ascii) : ascii :=
  let n := N_of_ascii c in
  if ((65 <=? n) && (n <=? 90))%N then ascii_of_N (n + 32) else c.

Fixpoint lowerString (s : string) : string :=
  match s with
  | EmptyString => EmptyString
  | String c s' => String (lower c) (lowerString s')
  end.

End Js.

(** ** The messaging adapter: [supabase/functions/send-whatsapp/index.ts] *)

Module SendWhatsapp.

(** A value produced by [JSON.parse].  A number is carried by its decimal
    rendering, what [String(n)] returns for it; both zeros render as "0". *)
Inductive JSON : Type :=
| JNull
| JBool (b : bool)
| JNum (repr : string)
| JStr (s : string)
| JArr (items : list JSON)
| JObj (fields : list (string * JSON)).

(** [Boolean(v)]: null, false, 0 and the empty string are falsy. *)
Definition truthy (v : JSON) : bool :=
  match v with
  | JNull => false
  | JBool b => b
  | JNum r => negb (r =? "0")%string
  | JStr s => negb (s =? "")%string
  | JArr _ => true
  | JObj _ => true
  end.

(** [String(v)].  An array prints as its elements joined by commas, where a
    null element prints as the empty string. *)
Fixpoint toString (v : JSON) : string :=
  match v with
  | JNull => "null"
  | JBool true => "true"
  | JBool false => "false"
  | JNum r => r
  | JStr s => s
  | JArr items =>
      concat ","
        (map (fun x => match x with JNull => "" | _ => toString x end) items)
  | JObj _ => "[object Object]"
  end.

(** The conversion [Array.prototype.join] applies to one element. *)
Definition joinElement (v : JSON) : string :=
  match v with
  | JNull => ""
  | _ => toString v
  end.

Definition join (sep : string) (items : list JSON) : string :=
  concat sep (map joinElement items).

(** A possibly [undefined] value: [None] is [undefined]. *)
Definition JsValue : Type := option JSON.

Definition valueToString (v : JsValue) : string :=
  match v with
  | None => "undefined"
  | Some j => toString j
  end.

(** Property read [v.key] on a parsed body; primitives and arrays have no
    such own property, so the read gives [undefined]. *)
Fixpoint lookup (key : string) (fields : list (string * JSON)) : JsValue :=
  match fields with
  | [] => None
  | (k, v) :: rest => if (k =? key)%string then Some v else lookup key rest
  end.

(** Lines 22-24: [Array.isArray(target) ? target.filter(Boolean).join(",")
    : String(target || "").trim()]. *)
Definition formattedTarget (target : JsValue) : string :=
  match target with
  | Some (JArr items) => join "," (filter truthy items)
  | Some v => Js.trim (toString (if truthy v then v else JStr ""))
  | None => Js.trim (toString (JStr ""))
  end.

(** A thrown value, by the text [String(error)] gives for it. *)
Definition Thrown : Type := string.

Record Request : Type := {
  method : string;
  (** the outcome of [await req.json()] *)
  json : Thrown + JSON
}.

Record UpstreamResponse : Type := {
  up_status : Z;
  (** the outcome of [await response.text()] *)
  up_text : Thrown + string
}.

(** [response.ok]: the status is in the range 200-299. *)
Definition up_ok (r : UpstreamResponse) : bool :=
  (200 <=? up_status r) && (up_status r <=? 299).

Record FetchRequest : Type := {
  url : string;
  fetch_method : string;
  fetch_headers : list (string * string);
  (** the [URLSearchParams] body, as its list of pairs *)
  form : list (string * string)
}.

Record Env : Type := {
  (** [Deno.env.get("FONNTE_TOKEN")] *)
  FONNTE_TOKEN : option string;
  (** the gateway: what [await fetch(...)] gives for a request *)
  fetch : FetchRequest -> Thrown + UpstreamResponse;
  (** [JSON.parse], [None] when it throws *)
  JSON_parse : string -> option JSON
}.

(** The body handed to [new Response]: a plain text, or
    [JSON.stringify] of a value. *)
Inductive Body : Type :=
| Text (s : string)
| Stringify (v : JSON).

Record Response : Type := {
  status : Z;
  headers : list (string * string);
  body : Body
}.

(** What the destructuring [const { target, message } = null] throws. *)
Definition destructure_null : Thrown :=
  "TypeError: Cannot destructure property 'target' of null".

(** Lines 28-38: the request sent to the gateway. *)
Definition sendRequest (token : option string) (target message : JsValue)
  : FetchRequest :=
  {| url := "https://api.fonnte.com/send";
     fetch_method := "POST";
     fetch_headers :=
       [ ("Authorization",
          match token with
          | Some t => t
          | None => ""
          end);
         ("Content-Type", "application/x-www-form-urlencoded") ];
     form := [ ("target", formattedTarget target);
               ("message", valueToString message) ] |}.

(** Lines 72-86: the [catch] branch. *)
Definition errorResponse (error : Thrown) : Response :=
  {| status := 200;
     headers := [ ("Access-Control-Allow-Origin", "*");
                  ("Content-Type", "application/json") ];
     body := Stringify (JObj [ ("success", JBool false);
                               ("error", JStr error) ]) |}.

(** Lines 47-71: the envelope built from the gateway's answer. *)
Definition envelope (env : Env) (r : UpstreamResponse) (raw : string) : JSON :=
  let parsed :=
    match JSON_parse env raw with
    | Some v => v
    | None => JObj [ ("raw", JStr raw) ]
    end in
  JObj [ ("success", JBool (up_ok r));
         ("status", JNum (Js.string_of_Z (up_status r)));
         ("data", parsed) ].

(** The properties [target] and [message] read by the destructuring at
    line 18, or the exception it raises. *)
Definition destructure (v : JSON) : Thrown + (JsValue * JsValue) :=
  match v with
  | JNull => inl destructure_null
  | JObj fields => inr (lookup "target" fields, lookup "message" fields)
  | _ => inr (None, None)
  end.

(** The handler passed to [serve]: the requests it sends to the gateway and
    the response it returns. *)
Definition serve (env : Env) (req : Request) : list FetchRequest * Response :=
  if (method req =? "OPTIONS")%string then
    ([], {| status := 200;
            headers :=
              [ ("Access-Control-Allow-Origin", "*");
                ("Access-Control-Allow-Methods", "POST, GET, OPTIONS");
                ("Access-Control-Allow-Headers",
                 "authorization, x-client-info, apikey, content-type") ];
            body := Text "ok" |})
  else
    match json req with
    | inl e => ([], errorResponse e)
    | inr v =>
        match destructure v with
        | inl e => ([], errorResponse e)
        | inr (target, message) =>
            let out := sendRequest (FONNTE_TOKEN env) target message in
            match fetch env out with
            | inl e => ([out], errorResponse e)
            | inr r =>
                match up_text r with
                | inl e => ([out], errorResponse e)
                | inr raw =>
                    ([out],
                     {| status := 200;
                        headers := [ ("Access-Control-Allow-Origin", "*");
                                     ("Content-Type", "application/json") ];
                        body := Stringify (envelope env r raw) |})
                end
            end
        end
    end.

(** [URLSearchParams.prototype.get]: the first value stored under a name. *)
Fixpoint param (name : string) (pairs : list (string * string))
  : option string :=
  match pairs with
  | [] => None
  | (k, v) :: rest => if (k =? name)%string then Some v else param name rest
  end.

(** The [target] values of the requests a call of the handler sent out. *)
Definition forwardedTargets (env : Env) (req : Request) : list (option string) :=
  map (fun out => param "target" (form out)) (fst (serve env req)).

Definition nonEmpty (s : string) : bool := negb (s =? "")%string.

Definition isBool (v : JsValue) : bool :=
  match v with Some (JBool _) => true | _ => false end.

Definition isNumber (v : JsValue) : bool :=
  match v with Some (JNum _) => true | _ => false end.

Definition isObject (v : JsValue) : bool :=
  match v with Some (JObj _) => true | _ => false end.

(** The two bodies the handler can answer a request with. *)
Definition fullBody (env : Env) (r : UpstreamResponse) (raw : string) : Body :=
  Stringify
    (JObj [ ("success", JBool (up_ok r));
            ("status", JNum (Js.string_of_Z (up_status r)));
            ("data", match JSON_parse env raw with
                     | Some v => v
                     | None => JObj [ ("raw", JStr raw) ]
                     end) ]).

Definition errorBody (e : Thrown) : Body :=
  Stringify (JObj [ ("success", JBool false); ("error", JStr e) ]).

(** The envelope as the interface description words it: a JSON object with
    a boolean [success], a number [status] and an object [data]. *)
Definition describedEnvelope (b : Body) : bool :=
  match b with
  | Stringify (JObj fields) =>
      isBool (lookup "success" fields)
      && isNumber (lookup "status" fields)
      && isObject (lookup "data" fields)
  | _ => false
  end.

(** The scalar normalisation as it is commonly described: [String(target)]
    trimmed, with [null] and [undefined] mapped to the empty string. *)
Definition stringTrimmedOrEmpty (target : JsValue) : string :=
  match target with
  | None => ""
  | Some JNull => ""
  | Some v => Js.trim (toString v)
  end.

End SendWhatsapp.

(** ** The hosted database, as the component sees it *)

Module Supabase.

Inductive Status : Type := pending | confirmed | completed | canceled.

Definition Status_eqb (a b : Status) : bool :=
  match a, b with
  | pending, pending | confirmed, confirmed
  | completed, completed | canceled, canceled => true
  | _, _ => false
  end.

(** Interface [AirportTransfer] (lines 22-33); an optional property is an
    [option]. *)
Record AirportTransfer : Type := {
  id : Z;
  booking_code : string;
  customer_name : string;
  pickup_location : string;
  dropoff_location : string;
  pickup_date : option string;
  pickup_time : option string;
  status : Status;
  driver_id : option string;
  price : option Z
}.

(** The session user returned by [supabase.auth.getUser()]. *)
Record User : Type := { user_email : string }.

(** A row of [drivers], by the two columns the component uses. *)
Record Driver : Type := { drv_id : string; drv_email : string }.

(** A row of [bookings], by the columns the component uses. *)
Record Booking : Type := {
  bk_id : string;
  code_booking : string;
  end_date : option string;
  remaining_payments : Z;
  user_id : string
}.

(** The object passed to [.update(...)]: [status] is always present,
    [driver_id] only in the accept handler. *)
Record Patch : Type := {
  patch_status : Status;
  patch_driver_id : option string
}.

Definition applyPatch (p : Patch) (t : AirportTransfer) : AirportTransfer :=
  {| id := id t;
     booking_code := booking_code t;
     customer_name := customer_name t;
     pickup_location := pickup_location t;
     dropoff_location := dropoff_location t;
     pickup_date := pickup_date t;
     pickup_time := pickup_time t;
     status := patch_status p;
     driver_id := match patch_driver_id p with
                  | Some d => Some d
                  | None => driver_id t
                  end;
     price := price t |}.

Inductive Table : Type := drivers_table | airport_transfer_table | bookings_table.

(** The state of the backend.  [select_fails] and [update_denied] stand for
    every reason a request comes back with an [error] (policy denial,
    network); [updates] records the update requests received, latest
    first. *)
Record Backend : Type := {
  session : option User;
  drivers : list Driver;
  airport_transfer : list AirportTransfer;
  bookings : list Booking;
  select_fails : Table -> bool;
  update_denied : list AirportTransfer -> Z -> Patch -> bool;
  updates : list (Z * Patch)
}.

(** The [{ data, error }] pair of a query: exactly one side is set. *)
Inductive Reply (A : Type) : Type :=
| Data (data : A)
| Error.
Arguments Data {A} data.
Arguments Error {A}.

(** [ILIKE]: [%] (and PostgREST's alias [*]) matches any run of characters,
    [_] any one character, a backslash quotes the next character; letters
    are compared without case.  A pattern ending in a lone backslash matches
    nothing. *)
Fixpoint ilike (pattern : string) : string -> bool :=
  match pattern with
  | EmptyString =>
      fun s => match s with EmptyString => true | String _ _ => false end
  | String c rest =>
      if ((c =? "%") || (c =? "*"))%char then
        fix run (s : string) : bool :=
          ilike rest s
          || match s with
             | EmptyString => false
             | String _ s' => run s'
             end
      else if (c =? "_")%char then
        fun s => match s with
                 | EmptyString => false
                 | String _ s' => ilike rest s'
                 end
      else if (c =? "\")%char then
        match rest with
        | EmptyString => fun _ => false
        | String e rest' =>
            fun s => match s with
                     | EmptyString => false
                     | String d s' =>
                         (Js.lower e =? Js.lower d)%char && ilike rest' s'
                     end
        end
      else
        fun s => match s with
                 | EmptyString => false
                 | String d s' =>
                     (Js.lower c =? Js.lower d)%char && ilike rest s'
                 end
  end.

(** The characters with a special meaning in a pattern. *)
Definition special (c : ascii) : bool :=
  ((c =? "%") || (c =? "*") || (c =? "_") || (c =? "\"))%char.

(** A pattern with no special character. *)
Fixpoint plain (pattern : string) : bool :=
  match pattern with
  | EmptyString => true
  | String c rest => negb (special c) && plain rest
  end.

(** [.maybeSingle()]: no row is [null] data, one row is that row, more rows
    are an error. *)
Definition maybeSingle {A : Type} (rows : list A) : Reply (option A) :=
  match rows with
  | [] => Data None
  | [r] => Data (Some r)
  | _ => Error
  end.

(** [.single()]: anything but exactly one row is an error. *)
Definition single {A : Type} (rows : list A) : Reply A :=
  match rows with
  | [r] => Data r
  | _ => Error
  end.

(** [from("drivers").select("id").ilike("email", email).maybeSingle()] *)
Definition driverByEmailIlike (b : Backend) (email : string)
  : Reply (option string) :=
  if select_fails b drivers_table then Error
  else maybeSingle
         (map drv_id (filter (fun d => ilike email (drv_email d)) (drivers b))).

(** [from("drivers").select("id").eq("email", email).single()] *)
Definition driverByEmailEq (b : Backend) (email : string) : Reply string :=
  if select_fails b drivers_table then Error
  else single
         (map drv_id
            (filter (fun d => (drv_email d =? email)%string) (drivers b))).

Definition hasDriver (d : string) (t : AirportTransfer) : bool :=
  match driver_id t with
  | Some d' => (d' =? d)%string
  | None => false
  end.

Definition statusIn (allowed : list Status) (t : AirportTransfer) : bool :=
  existsb (Status_eqb (status t)) allowed.

(** [from("airport_transfer").select("*").eq("driver_id", d)
    .in("status", allowed)] *)
Definition transfersOf (b : Backend) (d : string) (allowed : list Status)
  : Reply (list AirportTransfer) :=
  if select_fails b airport_transfer_table then Error
  else Data (filter (fun t => hasDriver d t && statusIn allowed t)
               (airport_transfer b)).

(** [from("bookings").select("*, vehicles(*)").eq("user_id", u)
    .gt("remaining_payments", 0)] *)
Definition unpaidBookingsOf (b : Backend) (u : string) : Reply (list Booking) :=
  if select_fails b bookings_table then Error
  else Data (filter (fun k => (user_id k =? u)%string
                              && (0 <? remaining_payments k))
               (bookings b)).

Definition updateRow (transferId : Z) (p : Patch) (t : AirportTransfer)
  : AirportTransfer :=
  if id t =? transferId then applyPatch p t else t.

(** [from("airport_transfer").update(p).eq("id", transferId)]: the backend
    after the request, and the rows it changed (what [.select()] returns)
    unless it refused. *)
Definition update (b : Backend) (transferId : Z) (p : Patch)
  : Backend * Reply (list AirportTransfer) :=
  let denied := update_denied b (airport_transfer b) transferId p in
  let rows :=
    if denied then airport_transfer b
    else map (updateRow transferId p) (airport_transfer b) in
  ({| session := session b;
      drivers := drivers b;
      airport_transfer := rows;
      bookings := bookings b;
      select_fails := select_fails b;
      update_denied := update_denied b;
      updates := (transferId, p) :: updates b |},
   if denied then Error
   else Data (filter (fun t => id t =? transferId) rows)).

End Supabase.

(** ** The notifications panel: component [DriverNotifications] *)

Module DriverNotifications.

Import Supabase.

Inductive MessageType : Type := overdue | payment | booking.

(** Interface [OverdueMessage] (lines 35-43). *)
Record OverdueMessage : Type := {
  msg_id : string;
  message : string;
  created_at : string;
  is_read : bool;
  msg_type : MessageType;
  amount : option Z;
  days_overdue : option Z
}.

Record Toast : Type := {
  title : string;
  description : string;
  variant : option string
}.

(** What the handlers take from the browser: the clock read by
    [new Date()], the time value [new Date(s).getTime()] of a string
    ([None] is NaN, an invalid date) and [Number.prototype.toLocaleString]. *)
Record Browser : Type := {
  today : Z;
  Date_parse : string -> option Z;
  toLocaleString : Z -> string
}.

(** The [useState] cells of the component, and the toasts shown so far
    (latest first). *)
Record State : Type := {
  transfers : list AirportTransfer;
  overdueMessages : list OverdueMessage;
  unreadCount : Z;
  loading : bool;
  error : option string;
  driverId : option string;
  toasts : list Toast
}.

Definition initialState : State :=
  {| transfers := []; overdueMessages := []; unreadCount := 0;
     loading := false; error := None; driverId := None; toasts := [] |}.

Definition setTransfers (v : list AirportTransfer) (s : State) : State :=
  {| transfers := v; overdueMessages := overdueMessages s;
     unreadCount := unreadCount s; loading := loading s; error := error s;
     driverId := driverId s; toasts := toasts s |}.

Definition setOverdueMessages (v : list OverdueMessage) (s : State) : State :=
  {| transfers := transfers s; overdueMessages := v;
     unreadCount := unreadCount s; loading := loading s; error := error s;
     driverId := driverId s; toasts := toasts s |}.

Definition setUnreadCount (v : Z) (s : State) : State :=
  {| transfers := transfers s; overdueMessages := overdueMessages s;
     unreadCount := v; loading := loading s; error := error s;
     driverId := driverId s; toasts := toasts s |}.

Definition setLoading (v : bool) (s : State) : State :=
  {| transfers := transfers s; overdueMessages := overdueMessages s;
     unreadCount := unreadCount s; loading := v; error := error s;
     driverId := driverId s; toasts := toasts s |}.

Definition setError (v : option string) (s : State) : State :=
  {| transfers := transfers s; overdueMessages := overdueMessages s;
     unreadCount := unreadCount s; loading := loading s; error := v;
     driverId := driverId s; toasts := toasts s |}.

Definition setDriverId (v : option string) (s : State) : State :=
  {| transfers := transfers s; overdueMessages := overdueMessages s;
     unreadCount := unreadCount s; loading := loading s; error := error s;
     driverId := v; toasts := toasts s |}.

Definition toast (t : Toast) (s : State) : State :=
  {| transfers := transfers s; overdueMessages := overdueMessages s;
     unreadCount := unreadCount s; loading := loading s; error := error s;
     driverId := driverId s; toasts := t :: toasts s |}.

Definition destructive (descr : string) : Toast :=
  {| title := "Error"; description := descr; variant := Some "destructive" |}.

Definition msPerDay : Z := 1000 * 60 * 60 * 24.

(** [new Date(s).getTime()]; the empty string is not a date. *)
Definition getTime (br : Browser) (s : string) : option Z :=
  if (s =? "")%string then None else Date_parse br s.

(** Lines 165-181: the body of the [forEach], as the messages it pushes for
    one booking.  A NaN [diffDays] fails the test [diffDays > 0]. *)
Definition overdueMessagesOf (br : Browser) (booking : Booking)
  : list OverdueMessage :=
  match end_date booking with
  | None => []
  | Some e =>
      if (e =? "")%string then []
      else
        match getTime br e with
        | None => []
        | Some endTime =>
            let diffTime := today br - endTime in
            let diffDays := Js.ceil_div diffTime msPerDay in
            if 0 <? diffDays then
              [ {| msg_id := "overdue-" ++ bk_id booking;
                   message :=
                     "Pembayaran untuk booking " ++ code_booking booking
                     ++ " telah jatuh tempo " ++ Js.string_of_Z diffDays
                     ++ " hari. Sisa pembayaran: Rp "
                     ++ toLocaleString br (remaining_payments booking);
                   created_at := e;
                   is_read := false;
                   msg_type := overdue;
                   amount := Some (remaining_payments booking);
                   days_overdue := Some diffDays |} ]
            else []
        end
  end.

(** The message built for a booking that is overdue by [n] days. *)
Definition reminder (br : Browser) (k : Booking) (e : string) (n : Z)
  : OverdueMessage :=
  {| msg_id := "overdue-" ++ bk_id k;
     message :=
       "Pembayaran untuk booking " ++ code_booking k
       ++ " telah jatuh tempo " ++ Js.string_of_Z n
       ++ " hari. Sisa pembayaran: Rp "
       ++ toLocaleString br (remaining_payments k);
     created_at := e;
     is_read := false;
     msg_type := overdue;
     amount := Some (remaining_payments k);
     days_overdue := Some n |}.

(** Lines 161-182: the [messages] array after the loop. *)
Definition deriveMessages (br : Browser) (bookingsData : list Booking)
  : list OverdueMessage :=
  flat_map (overdueMessagesOf br) bookingsData.

(** Lines 147-189. *)
Definition fetchOverdueMessages (br : Browser) (b : Backend) (userId : string)
  (s : State) : State :=
  match unpaidBookingsOf b userId with
  | Error => s
  | Data bookingsData =>
      let messages := deriveMessages br bookingsData in
      setUnreadCount
        (Z.of_nat (List.length (filter (fun m => negb (is_read m)) messages)))
        (setOverdueMessages messages s)
  end.

(** Lines 191-198. *)
Definition markMessageAsRead (messageId : string) (s : State) : State :=
  setUnreadCount (Z.max 0 (unreadCount s - 1))
    (setOverdueMessages
       (map (fun msg =>
               if (msg_id msg =? messageId)%string then
                 {| msg_id := msg_id msg; message := message msg;
                    created_at := created_at msg; is_read := true;
                    msg_type := msg_type msg; amount := amount msg;
                    days_overdue := days_overdue msg |}
               else msg)
          (overdueMessages s))
       s).

(** Lines 114-118: the status group of the query. *)
Definition statusGroup (historyMode : bool) : list Status :=
  if historyMode then [completed; canceled] else [pending; confirmed].

(** Lines 66-145.  The requests never come back as exceptions (the client
    returns [{ data, error }]), so the [catch] branch is not taken; the
    [finally] clears [loading] on every path. *)
Definition fetchAirportTransfers (historyMode : bool) (br : Browser)
  (b : Backend) (s : State) : State :=
  let s := setError None (setLoading true s) in
  match session b with
  | None =>
      setLoading false
        (setLoading false (setError (Some "Driver not authenticated") s))
  | Some user =>
      match driverByEmailIlike b (user_email user) with
      | Error =>
          setLoading false
            (setLoading false (setError (Some "Driver lookup failed") s))
      | Data None =>
          setLoading false
            (setLoading false
               (setError (Some "Driver ID not found for current user") s))
      | Data (Some currentDriverId) =>
          let s := setDriverId (Some currentDriverId) s in
          let s :=
            match transfersOf b currentDriverId (statusGroup historyMode) with
            | Error => setError (Some "Failed to get airport transfers") s
            | Data data =>
                let s := setTransfers data s in
                match data with
                | [] =>
                    setError
                      (Some (if historyMode
                             then "No airport transfer history found."
                             else "No pending transfers assigned to you."))
                      s
                | _ :: _ => s
                end
            end in
          setLoading false (fetchOverdueMessages br b currentDriverId s)
      end
  end.

(** The local reconciliation shared by the three handlers:
    [prevTransfers.map(item => item.id === transferId ? {...item, ...p}
    : item)]. *)
Definition reconcile (transferId : Z) (p : Patch)
  (prevTransfers : list AirportTransfer) : list AirportTransfer :=
  map (updateRow transferId p) prevTransfers.

(** A handler runs up to its last statement, the call
    [fetchAirportTransfers()] that it does not await: its result is the
    backend and the state at that point, and whether the refresh was
    requested. *)
Definition Handled : Type := Backend * State * bool.

(** The payload of the accept handler for a resolved driver identifier. *)
Definition acceptPatch (d : string) : Patch :=
  {| patch_status := confirmed; patch_driver_id := Some d |}.

(** The payload of the complete handler. *)
Definition completePatch : Patch :=
  {| patch_status := completed; patch_driver_id := None |}.

(** The toast of a completed transfer. *)
Definition completedToast : Toast :=
  {| title := "Transfer Completed";
     description := "Pesanan sudah Selesai";
     variant := Some "success" |}.

Definition backendOf (h : Handled) : Backend := fst (fst h).
Definition stateOf (h : Handled) : State := snd (fst h).
Definition refreshOf (h : Handled) : bool := snd h.

(** Lines 204-294. *)
Definition handleAccept (b : Backend) (transferId : Z) (s : State) : Handled :=
  match session b with
  | None => (b, toast (destructive "Driver not authenticated.") s, false)
  | Some user =>
      match driverByEmailEq b (user_email user) with
      | Error => (b, toast (destructive "Driver ID not found.") s, false)
      | Data currentDriverId =>
          let p := {| patch_status := confirmed;
                      patch_driver_id := Some currentDriverId |} in
          match update b transferId p with
          | (b', Error) =>
              (b', toast (destructive "Failed to accept the transfer.") s,
               false)
          | (b', Data _) =>
              (b',
               toast {| title := "Success";
                        description := "Transfer accepted and driver assigned.";
                        variant := None |}
                 (setTransfers (reconcile transferId p (transfers s)) s),
               true)
          end
      end
  end.

(** Lines 296-342. *)
Definition handleDecline (b : Backend) (transferId : Z) (s : State) : Handled :=
  let p := {| patch_status := canceled; patch_driver_id := None |} in
  match update b transferId p with
  | (b', Error) =>
      (b', toast (destructive "Failed to cancel the transfer.") s, false)
  | (b', Data _) =>
      (b',
       toast {| title := "Transfer Declined";
                description := "You have declined the airport transfer.";
                variant := None |}
         (setTransfers (reconcile transferId p (transfers s)) s),
       true)
  end.

(** Lines 344-390. *)
Definition handleComplete (b : Backend) (transferId : Z) (s : State) : Handled :=
  let p := {| patch_status := completed; patch_driver_id := None |} in
  match update b transferId p with
  | (b', Error) =>
      (b',
       toast (destructive "Failed to mark the transfer as completed.") s,
       false)
  | (b', Data _) =>
      (b',
       toast {| title := "Transfer Completed";
                description := "Pesanan sudah Selesai";
                variant := Some "success" |}
         (setTransfers (reconcile transferId p (transfers s)) s),
       true)
  end.

(** The refresh a handler asked for, run to its end against the backend the
    handler left. *)
Definition thenRefresh (historyMode : bool) (br : Browser) (h : Handled)
  : Backend * State :=
  let '(b, s, again) := h in
  (b, if again then fetchAirportTransfers historyMode br b s else s).

(** What can happen to the component: the user's actions, the mount effect
    (a refresh), and the backend being changed by someone else. *)
Inductive Event : Type :=
| Refresh (historyMode : bool) (br : Browser)
| MarkRead (messageId : string)
| Elsewhere (b' : Backend)
| Accept (historyMode : bool) (br : Browser) (transferId : Z)
| Decline (historyMode : bool) (br : Browser) (transferId : Z)
| Complete (historyMode : bool) (br : Browser) (transferId : Z).

Definition step (e : Event) (w : Backend * State) : Backend * State :=
  let (b, s) := w in
  match e with
  | Refresh h br => (b, fetchAirportTransfers h br b s)
  | MarkRead m => (b, markMessageAsRead m s)
  | Elsewhere b' => (b', s)
  | Accept h br t => thenRefresh h br (handleAccept b t s)
  | Decline h br t => thenRefresh h br (handleDecline b t s)
  | Complete h br t => thenRefresh h br (handleComplete b t s)
  end.

(** A run of events, in order. *)
Definition run (es : list Event) (w : Backend * State) : Backend * State :=
  fold_left (fun w e => step e w) es w.

End DriverNotifications.

(** ** More of the JavaScript string library *)

Module JsString.

(** The string begins with a white-space character. *)
Definition startsWithSpace (s : string) : bool :=
  match s with
  | EmptyString => false
  | String c _ => Js.is_white_space c
  end.

(** The string ends with a white-space character. *)
Fixpoint endsWithSpace (s : string) : bool :=
  match s with
  | EmptyString => false
  | String c EmptyString => Js.is_white_space c
  | String _ rest => endsWithSpace rest
  end.

(** [String.prototype.toLowerCase] on one code unit below 256: the ASCII
    capitals and the Latin-1 capitals (all of 192-222 but the
    multiplication sign) move up by 32. *)
Definition toLowerCaseChar (c : ascii) : ascii :=
  let n := N_of_ascii c in
  if ((65 <=? n) && (n <=? 90)
      || (192 <=? n) && (n <=? 222) && negb (n =? 215))%N
  then ascii_of_N (n + 32) else c.

Fixpoint toLowerCase (s : string) : string :=
  match s with
  | EmptyString => EmptyString
  | String c rest => String (toLowerCaseChar c) (toLowerCase rest)
  end.

(** [s.includes(sub)]: [sub] occurs in [s] at some position. *)
Fixpoint includes (s sub : string) : bool :=
  String.prefix sub s
  || match s with
     | EmptyString => false
     | String _ rest => includes rest sub
     end.

(** [s || d] on strings: the empty string is falsy. *)
Definition orElse (s d : string) : string :=
  if (s =? "")%string then d else s.

End JsString.

(** ** What the panel renders: badge and action buttons *)

Module NotificationsView.

Import Supabase DriverNotifications.

(** Line 185: [messages.filter((m) => !m.is_read).length]. *)
Definition unread (messages : list OverdueMessage) : Z :=
  Z.of_nat (List.length (filter (fun m => negb (is_read m)) messages)).

(** The buttons of the actions cell of a row (lines 577-609). *)
Inductive Button : Type := AcceptButton | DeclineButton | CompleteButton.

(** Lines 579-609: accept and decline are rendered for a pending transfer,
    complete for a confirmed one, and none in the history view. *)
Definition buttons (isHistoryView : bool) (t : AirportTransfer) : list Button :=
  ((if negb isHistoryView && Status_eqb (status t) pending
    then [ AcceptButton; DeclineButton ] else [])
   ++ (if negb isHistoryView && Status_eqb (status t) confirmed
       then [ CompleteButton ] else []))%list.

(** The [onClick] of a button of the row of [t]. *)
Definition click (btn : Button) (b : Backend) (t : AirportTransfer) (s : State)
  : Handled :=
  match btn with
  | AcceptButton => handleAccept b (id t) s
  | DeclineButton => handleDecline b (id t) s
  | CompleteButton => handleComplete b (id t) s
  end.

(** The edges of the transfer life cycle:
    pending -> confirmed -> completed, pending -> canceled. *)
Definition lifecycle (from to : Status) : bool :=
  match from, to with
  | pending, confirmed | pending, canceled | confirmed, completed => true
  | _, _ => false
  end.

(** The status a button asks for. *)
Definition requested (btn : Button) : Status :=
  match btn with
  | AcceptButton => confirmed
  | DeclineButton => canceled
  | CompleteButton => completed
  end.


(** The function [markMessageAsRead] maps over the reminders. *)
Definition readIf (messageId : string) (msg : OverdueMessage) : OverdueMessage :=
  if (msg_id msg =? messageId)%string then
    {| msg_id := msg_id msg; message := message msg;
       created_at := created_at msg; is_read := true;
       msg_type := msg_type msg; amount := amount msg;
       days_overdue := days_overdue msg |}
  else msg.


(** The payload of the decline handler. *)
Definition declinePatch : Patch :=
  {| patch_status := canceled; patch_driver_id := None |}.

(** The columns of a transfer that no handler writes. *)
Definition fixedColumns (t : AirportTransfer)
  : Z * string * string * string * string * option string * option string
    * option Z :=
  (id t, booking_code t, customer_name t, pickup_location t,
   dropoff_location t, pickup_date t, pickup_time t, price t).


End NotificationsView.

(** ** The transaction history: component [TransactionHistory] *)

Module TransactionHistory.

(** A row of [histori_transaksi] as the query returns it; a [null] column
    is [None].  Amounts are whole rupiah. *)
Record HistoriRow : Type := {
  row_id : string;
  row_code_booking : option string;
  row_jenis_transaksi : option string;
  row_keterangan : option string;
  row_nominal : option Z;
  row_saldo_awal : option Z;
  row_saldo_akhir : option Z;
  row_trans_date : option string;
  row_status : option string;
  row_payment_method : option string;
  row_bank_name : option string;
  row_account_number : option string;
  row_account_holder_received : option string
}.

(** The objects built at lines 139-155.  [trans_date] is the time value of
    the [Date], [None] for an invalid date. *)
Record Formatted : Type := {
  id : string;
  code_booking : string;
  jenis_transaksi : string;
  keterangan : string;
  nominal : Z;
  saldo_awal : Z;
  saldo_akhir : Z;
  trans_date : option Z;
  status : string;
  payment_method : string;
  bank_name : string;
  account_number : string;
  account_holder_received : string
}.

(** [v || d] on a nullable text column: [null] and the empty string give
    the default. *)
Definition textOr (v : option string) (d : string) : string :=
  match v with
  | Some s => JsString.orElse s d
  | None => d
  end.

(** [v || 0] on a nullable number column. *)
Definition numberOrZero (v : option Z) : Z :=
  match v with
  | Some n => n
  | None => 0
  end.

(** Lines 139-155, for one row; [now] is the clock read by [new Date()] and
    [parse] the time value of [new Date(s)]. *)
Definition format (now : Z) (parse : string -> option Z) (r : HistoriRow)
  : Formatted :=
  {| id := row_id r;
     code_booking := textOr (row_code_booking r) "-";
     jenis_transaksi := textOr (row_jenis_transaksi r) "Unknown";
     keterangan := textOr (row_keterangan r) "Unknown";
     nominal := numberOrZero (row_nominal r);
     saldo_awal := numberOrZero (row_saldo_awal r);
     saldo_akhir := numberOrZero (row_saldo_akhir r);
     trans_date :=
       match row_trans_date r with
       | Some d => if (d =? "")%string then Some now else parse d
       | None => Some now
       end;
     status := textOr (row_status r) "pending";
     payment_method := textOr (row_payment_method r) "-";
     bank_name := textOr (row_bank_name r) "-";
     account_number := textOr (row_account_number r) "-";
     account_holder_received := textOr (row_account_holder_received r) "-" |}.

(** Lines 177-186. *)
Definition matchesSearch (searchQuery : string) (t : Formatted) : bool :=
  let q := JsString.toLowerCase searchQuery in
  JsString.includes
    (JsString.toLowerCase (JsString.orElse (jenis_transaksi t) "")) q
  || JsString.includes
       (JsString.toLowerCase (JsString.orElse (code_booking t) "")) q
  || JsString.includes
       (JsString.toLowerCase (JsString.orElse (payment_method t) "")) q.

(** Lines 188-195. *)
Definition matchesFilter (activeFilter : string) (t : Formatted) : bool :=
  (activeFilter =? "all")%string
  || (activeFilter =? "income")%string && (0 <? nominal t)
  || (activeFilter =? "expense")%string && (nominal t <? 0)
  || (activeFilter =? "topup")%string
     && JsString.includes
          (JsString.toLowerCase (JsString.orElse (jenis_transaksi t) ""))
          "topup"
  || (activeFilter =? "payment")%string
     && JsString.includes
          (JsString.toLowerCase (JsString.orElse (jenis_transaksi t) ""))
          "payment".

(** Lines 176-198. *)
Definition filteredTransactions (transactions : list Formatted)
  (searchQuery activeFilter : string) : list Formatted :=
  filter (fun t => matchesSearch searchQuery t && matchesFilter activeFilter t)
    transactions.

(** [Array.prototype.slice(start, end)]: a negative index counts from the
    end, and both are clamped to the array. *)
Definition slice {A : Type} (l : list A) (start finish : Z) : list A :=
  let len := Z.of_nat (List.length l) in
  let k := if start <? 0 then Z.max (len + start) 0 else Z.min start len in
  let final :=
    if finish <? 0 then Z.max (len + finish) 0 else Z.min finish len in
  firstn (Z.to_nat (final - k)) (skipn (Z.to_nat k) l).

(** Line 201: [Math.ceil(filteredTransactions.length / rowsPerPage)]. *)
Definition totalPages {A : Type} (filtered : list A) (rowsPerPage : Z) : Z :=
  Js.ceil_div (Z.of_nat (List.length filtered)) rowsPerPage.

(** Lines 202-203. *)
Definition startIndex (currentPage rowsPerPage : Z) : Z :=
  (currentPage - 1) * rowsPerPage.

Definition endIndex (currentPage rowsPerPage : Z) : Z :=
  startIndex currentPage rowsPerPage + rowsPerPage.

(** Lines 204-207. *)
Definition paginatedTransactions {A : Type} (filtered : list A)
  (currentPage rowsPerPage : Z) : list A :=
  slice filtered (startIndex currentPage rowsPerPage)
    (endIndex currentPage rowsPerPage).

(** Lines 629-638: the number on the [i]-th page button. *)
Definition pageNum (currentPage total i : Z) : Z :=
  if total <=? 5 then i + 1
  else if currentPage <=? 3 then i + 1
  else if total - 2 <=? currentPage then total - 4 + i
  else currentPage - 2 + i.

(** Lines 628-653: the numbers of the page buttons, left to right
    ([Array.from({ length: Math.min(5, totalPages) }, ...)]). *)
Definition pageNumbers (currentPage total : Z) : list Z :=
  map (fun i => pageNum currentPage total (Z.of_nat i))
    (seq 0 (Z.to_nat (Z.min 5 total))).

(** Lines 602-604: the two ends of the range label, "a-b dari n". *)
Definition rangeLabel {A : Type} (filtered : list A)
  (currentPage rowsPerPage : Z) : Z * Z :=
  (startIndex currentPage rowsPerPage + 1,
   Z.min (endIndex currentPage rowsPerPage) (Z.of_nat (List.length filtered))).

(** The [useState] cells the fetch writes. *)
Record State : Type := {
  transactions : list Formatted;
  loading : bool;
  error : option string
}.

(** Lines 87-171.  [userId] is the prop, [sessionUserId] the identifier of
    the session user if there is one, and [query] the answer of
    [from("histori_transaksi").select("*").eq("user_id", id)
    .order("trans_date", { ascending: false })] for a user identifier. *)
Definition fetchTransactionHistory (now : Z) (parse : string -> option Z)
  (userId sessionUserId : option string)
  (query : string -> Supabase.Reply (list HistoriRow)) (s : State) : State :=
  let truthyId (v : option string) : option string :=
    match v with
    | Some i => if (i =? "")%string then None else Some i
    | None => None
    end in
  let currentUserId :=
    match truthyId userId with
    | Some i => Some i
    | None => truthyId sessionUserId
    end in
  match currentUserId with
  | None => {| transactions := []; loading := false; error := error s |}
  | Some i =>
      match query i with
      | Supabase.Error =>
          {| transactions := transactions s; loading := false;
             error := Some "Failed to fetch transaction history" |}
      | Supabase.Data [] =>
          {| transactions := []; loading := false; error := error s |}
      | Supabase.Data historiData =>
          {| transactions := map (format now parse) historiData;
             loading := false; error := error s |}
      end
  end.

End TransactionHistory.

(** ** The profile page: component [ProfilePage] *)

Module ProfilePage.

(** The backend as the page sees it, for rows of any shape: the outcome of
    [supabase.auth.getSession()] (an error, or the identifier of the
    session user if there is one), and the two tables by identifier. *)
Record Backend (Row : Type) : Type := {
  getSession : SendWhatsapp.Thrown + option string;
  drivers : list (string * Row);
  users : list (string * Row);
  drivers_fail : bool;
  users_fail : bool
}.
Arguments getSession {Row} b.
Arguments drivers {Row} b.
Arguments users {Row} b.
Arguments drivers_fail {Row} b.
Arguments users_fail {Row} b.

Record State (Row : Type) : Type := {
  user : option Row;
  loading : bool;
  error : option string
}.
Arguments user {Row} s.
Arguments loading {Row} s.
Arguments error {Row} s.

(** [from(table).select(...).eq("id", userId).single()] *)
Definition byId {Row : Type} (fails : bool) (table : list (string * Row))
  (userId : string) : Supabase.Reply Row :=
  if fails then Supabase.Error
  else Supabase.single
         (map snd (filter (fun r => (fst r =? userId)%string) table)).

(** Lines 43-54: the identifier the page looks up, [None] when the [try]
    block throws before it has one. *)
Definition resolveUserId {Row : Type} (userId : option string)
  (b : Backend Row) : option string :=
  match userId with
  | Some i => if (i =? "")%string then
                match getSession b with
                | inr (Some u) => if (u =? "")%string then None else Some u
                | _ => None
                end
              else Some i
  | None =>
      match getSession b with
      | inr (Some u) => if (u =? "")%string then None else Some u
      | _ => None
      end
  end.

(** Lines 37-85. *)
Definition fetchUserProfile {Row : Type} (userId : option string)
  (b : Backend Row) (s : State Row) : State Row :=
  let failed := {| user := user s; loading := false;
                   error := Some "Failed to load user profile" |} in
  match resolveUserId userId b with
  | None => failed
  | Some i =>
      match byId (drivers_fail b) (drivers b) i with
      | Supabase.Data driverData =>
          {| user := Some driverData; loading := false; error := None |}
      | Supabase.Error =>
          match byId (users_fail b) (users b) i with
          | Supabase.Data userData =>
              {| user := Some userData; loading := false; error := None |}
          | Supabase.Error => failed
          end
      end
  end.

End ProfilePage.

(** ** Concrete inputs used by the examples below *)

Module Examples.

Import Supabase DriverNotifications.

(** A gateway that answers 200 with a JSON body, behind a [JSON.parse] that
    knows that one body. *)
Definition gatewayUp : SendWhatsapp.Env :=
  {| SendWhatsapp.FONNTE_TOKEN := Some "secret";
     SendWhatsapp.fetch := fun _ =>
       inr {| SendWhatsapp.up_status := 200;
              SendWhatsapp.up_text := inr "{}" |};
     SendWhatsapp.JSON_parse := fun raw =>
       if (raw =? "{}")%string then Some (SendWhatsapp.JObj []) else None |}.

(** A gateway that answers 502 with an HTML page. *)
Definition gatewayHtml : SendWhatsapp.Env :=
  {| SendWhatsapp.FONNTE_TOKEN := Some "secret";
     SendWhatsapp.fetch := fun _ =>
       inr {| SendWhatsapp.up_status := 502;
              SendWhatsapp.up_text := inr "<html>Bad Gateway</html>" |};
     SendWhatsapp.JSON_parse := fun raw =>
       if (raw =? "{}")%string then Some (SendWhatsapp.JObj []) else None |}.

(** A gateway that cannot be reached: [fetch] rejects. *)
Definition gatewayDown : SendWhatsapp.Env :=
  {| SendWhatsapp.FONNTE_TOKEN := Some "secret";
     SendWhatsapp.fetch := fun _ => inl "TypeError: error sending request";
     SendWhatsapp.JSON_parse := fun _ => None |}.

Definition post (v : SendWhatsapp.JSON) : SendWhatsapp.Request :=
  {| SendWhatsapp.method := "POST"; SendWhatsapp.json := inr v |}.

Definition sendTo (target : SendWhatsapp.JSON) : SendWhatsapp.Request :=
  post (SendWhatsapp.JObj [ ("target", target);
                            ("message", SendWhatsapp.JStr "Halo") ]).

(** A POST whose body is not JSON: [req.json()] rejects. *)
Definition postGarbage : SendWhatsapp.Request :=
  {| SendWhatsapp.method := "POST";
     SendWhatsapp.json := inl "SyntaxError: Unexpected token" |}.

Definition twoNumbers : SendWhatsapp.JSON :=
  SendWhatsapp.JArr [ SendWhatsapp.JStr "628111"; SendWhatsapp.JStr "628222" ].

Definition twoNumbersAndBlank : SendWhatsapp.JSON :=
  SendWhatsapp.JArr [ SendWhatsapp.JStr "628111"; SendWhatsapp.JStr "";
                      SendWhatsapp.JStr "628222" ].

Definition transfer (n : Z) (st : Status) (d : option string)
  : AirportTransfer :=
  {| id := n; booking_code := "AT-" ++ Js.string_of_Z n;
     customer_name := "Budi"; pickup_location := "CGK";
     dropoff_location := "Bandung"; pickup_date := Some "2025-01-15";
     pickup_time := Some "09:00"; status := st; driver_id := d;
     price := Some 350000 |}.

(** 2025-01-15T00:00:00Z and 2025-01-10T00:00:00Z in milliseconds. *)
Definition jan15 : Z := 1736899200000.
Definition jan10 : Z := 1736467200000.
Definition jan16 : Z := 1736985600000.

Definition browser : Browser :=
  {| today := jan15;
     Date_parse := fun s =>
       if (s =? "2025-01-10")%string then Some jan10
       else if (s =? "2025-01-16")%string then Some jan16
       else None;
     toLocaleString := Js.string_of_Z |}.

Definition lateBooking : Booking :=
  {| bk_id := "b1"; code_booking := "BK-001"; end_date := Some "2025-01-10";
     remaining_payments := 500000; user_id := "drv-1" |}.

Definition futureBooking : Booking :=
  {| bk_id := "b2"; code_booking := "BK-002"; end_date := Some "2025-01-16";
     remaining_payments := 500000; user_id := "drv-1" |}.

(** A backend that accepts everything, with one driver whose stored email
    has capital letters. *)
Definition backend (sessionEmail : string) : Backend :=
  {| session := Some {| user_email := sessionEmail |};
     drivers := [ {| drv_id := "drv-1"; drv_email := "Driver@Example.com" |} ];
     airport_transfer :=
       [ transfer 7 pending (Some "drv-1");
         transfer 8 confirmed (Some "drv-1");
         transfer 9 completed (Some "drv-1") ];
     bookings := [ lateBooking; futureBooking ];
     select_fails := fun _ => false;
     update_denied := fun _ _ _ => false;
     updates := [] |}.

(** The same backend with no session. *)
Definition signedOut : Backend :=
  {| session := None;
     drivers := drivers (backend "");
     airport_transfer := airport_transfer (backend "");
     bookings := bookings (backend "");
     select_fails := fun _ => false;
     update_denied := fun _ _ _ => false;
     updates := [] |}.

Definition listed : State :=
  setTransfers [ transfer 7 pending (Some "drv-1");
                 transfer 8 confirmed (Some "drv-1") ] initialState.

End Examples.

(** ** Further concrete inputs *)

Module MoreExamples.

Import Supabase DriverNotifications.

(** The example backend behind a policy that refuses every update. *)
Definition readOnly : Backend :=
  {| session := session (Examples.backend "driver@example.com");
     drivers := drivers (Examples.backend "driver@example.com");
     airport_transfer := airport_transfer (Examples.backend "driver@example.com");
     bookings := bookings (Examples.backend "driver@example.com");
     select_fails := fun _ => false;
     update_denied := fun _ _ _ => true;
     updates := [] |}.

(** The example backend with the [airport_transfer] table unreadable. *)
Definition transfersDown : Backend :=
  {| session := session (Examples.backend "driver@example.com");
     drivers := drivers (Examples.backend "driver@example.com");
     airport_transfer := airport_transfer (Examples.backend "driver@example.com");
     bookings := bookings (Examples.backend "driver@example.com");
     select_fails := fun t =>
       match t with airport_transfer_table => true | _ => false end;
     update_denied := fun _ _ _ => false;
     updates := [] |}.

(** The state after the first fetch of the example session. *)
Definition fetched : State :=
  fetchAirportTransfers false Examples.browser
    (Examples.backend "driver@example.com") initialState.

(** The example browser one millisecond later. *)
Definition browserLater : Browser :=
  {| today := Examples.jan15 + 1;
     Date_parse := Date_parse Examples.browser;
     toLocaleString := toLocaleString Examples.browser |}.

(** A history row with every nullable column [null]. *)
Definition blankRow : TransactionHistory.HistoriRow :=
  {| TransactionHistory.row_id := "h1";
     TransactionHistory.row_code_booking := None;
     TransactionHistory.row_jenis_transaksi := None;
     TransactionHistory.row_keterangan := None;
     TransactionHistory.row_nominal := None;
     TransactionHistory.row_saldo_awal := None;
     TransactionHistory.row_saldo_akhir := None;
     TransactionHistory.row_trans_date := None;
     TransactionHistory.row_status := None;
     TransactionHistory.row_payment_method := None;
     TransactionHistory.row_bank_name := None;
     TransactionHistory.row_account_number := None;
     TransactionHistory.row_account_holder_received := None |}.

(** What the history shows for it: a payment of amount zero. *)
Definition voidedPayment : TransactionHistory.Formatted :=
  TransactionHistory.format 0 (fun _ => None) blankRow.

(** A user on file in both tables, signed in. *)
Definition profiles : ProfilePage.Backend string :=
  {| ProfilePage.getSession := inr (Some "u1");
     ProfilePage.drivers := [ ("u1", "driver row of u1") ];
     ProfilePage.users := [ ("u1", "user row of u1"); ("u2", "user row of u2") ];
     ProfilePage.drivers_fail := false;
     ProfilePage.users_fail := false |}.

End MoreExamples.

(** * Properties of the messaging adapter *)

Module AdapterFacts.

Import SendWhatsapp.

Lemma filter_truthy_strings (strs : list string) :
  filter truthy (map JStr strs) = map JStr (filter nonEmpty strs).
Proof.
  induction strs as [|s strs IH]; simpl; [reflexivity|].
  unfold nonEmpty at 1. destruct (s =? "")%string; simpl; now rewrite IH.
Qed.

Lemma joinElement_strings (strs : list string) :
  map joinElement (map JStr strs) = strs.
Proof.
  induction strs as [|s strs IH]; simpl; [reflexivity | now rewrite IH].
Qed.

Lemma filter_keeps_all {A : Type} (f : A -> bool) (l : list A) :
  forallb f l = true -> filter f l = l.
Proof.
  induction l as [|a l IH]; simpl; [reflexivity|].
  destruct (f a); simpl; [intro H; now rewrite IH | discriminate].
Qed.

Lemma nonEmpty_kept (strs : list string) :
  Forall (fun s => s <> "") (filter nonEmpty strs).
Proof.
  apply Forall_forall. intros s Hs. apply filter_In in Hs as [_ Hs].
  unfold nonEmpty in Hs. intros ->. discriminate.
Qed.

Lemma formattedTarget_strings (strs : list string) :
  formattedTarget (Some (JArr (map JStr strs)))
  = concat "," (filter nonEmpty strs).
Proof.
  unfold formattedTarget, join.
  now rewrite filter_truthy_strings, joinElement_strings.
Qed.

(** A string target is forwarded trimmed; the empty string stays empty. *)
Lemma formattedTarget_string (s : string) :
  formattedTarget (Some (JStr s)) = Js.trim s.
Proof.
  unfold formattedTarget, truthy.
  destruct (s =? "")%string eqn:E; simpl; [|reflexivity].
  apply String.eqb_eq in E. now subst.
Qed.

(** What [trimStart] returns does not begin with white space. *)
Lemma trimStart_no_leading (s : string) (c : ascii) (rest : string) :
  Js.trimStart s = String c rest -> Js.is_white_space c = false.
Proof.
  induction s as [|a s IH]; simpl; [discriminate|].
  destruct (Js.is_white_space a) eqn:E; [exact IH|].
  intros [= <- _]. exact E.
Qed.

(** A request that is not a preflight, whose body parses to an object, is
    forwarded once, with the normalised target. *)
Lemma serve_forwards (env : Env) (req : Request) (fields : list (string * JSON)) :
  (method req =? "OPTIONS")%string = false ->
  json req = inr (JObj fields) ->
  fst (serve env req)
  = [ sendRequest (FONNTE_TOKEN env) (lookup "target" fields)
        (lookup "message" fields) ].
Proof.
  intros Hm Hj. unfold serve. rewrite Hm, Hj. simpl.
  destruct (fetch env _) as [e|r]; [reflexivity|].
  destruct (up_text r); reflexivity.
Qed.

Lemma forwardedTargets_object (env : Env) (req : Request)
  (fields : list (string * JSON)) :
  (method req =? "OPTIONS")%string = false ->
  json req = inr (JObj fields) ->
  forwardedTargets env req = [ Some (formattedTarget (lookup "target" fields)) ].
Proof.
  intros Hm Hj. unfold forwardedTargets.
  now rewrite (serve_forwards env req fields Hm Hj).
Qed.

(** C8, as amended: for every request whose target is an array of strings,
    the one request sent to the gateway carries as target the comma-joined
    string of the non-empty elements of the array; when no element is
    empty this is the comma-joined string of all its elements, and
    ["628111","628222"] is forwarded as "628111,628222". *)
Theorem array_target_forwarded_joined (env : Env) (req : Request)
  (fields : list (string * JSON)) (strs : list string) :
  (method req =? "OPTIONS")%string = false ->
  json req = inr (JObj fields) ->
  lookup "target" fields = Some (JArr (map JStr strs)) ->
  forwardedTargets env req = [ Some (concat "," (filter nonEmpty strs)) ]
  /\ (forallb nonEmpty strs = true ->
      forwardedTargets env req = [ Some (concat "," strs) ])
  /\ (strs = [ "628111"; "628222" ] ->
      forwardedTargets env req = [ Some "628111,628222" ]).
Proof.
  intros Hm Hj Ht.
  assert (H : forwardedTargets env req
              = [ Some (concat "," (filter nonEmpty strs)) ]).
  { rewrite (forwardedTargets_object env req fields Hm Hj), Ht.
    now rewrite formattedTarget_strings. }
  split; [exact H|]. split.
  - intro Hall. rewrite H. now rewrite (filter_keeps_all _ _ Hall).
  - intros ->. exact H.
Qed.

Lemma array_target_forwarded_joined_witness :
  forwardedTargets Examples.gatewayUp (Examples.sendTo Examples.twoNumbers)
  = [ Some "628111,628222" ].
Proof.
  apply (array_target_forwarded_joined Examples.gatewayUp
           (Examples.sendTo Examples.twoNumbers)
           [ ("target", Examples.twoNumbers); ("message", JStr "Halo") ]
           [ "628111"; "628222" ]); reflexivity.
Defined.

(** C8 as stated fails on an array with an empty string: the forwarded
    target is not the comma-joined string of the elements. *)
Lemma array_with_blank_not_plain_join :
  forwardedTargets Examples.gatewayUp
    (Examples.sendTo Examples.twoNumbersAndBlank)
  = [ Some "628111,628222" ]
  /\ concat "," [ "628111"; ""; "628222" ] = "628111,,628222"
  /\ forwardedTargets Examples.gatewayUp
       (Examples.sendTo Examples.twoNumbersAndBlank)
     <> [ Some (concat "," [ "628111"; ""; "628222" ]) ].
Proof.
  split; [reflexivity|]. split; [reflexivity|]. discriminate.
Qed.

Lemma serve_status (env : Env) (req : Request) :
  status (snd (serve env req)) = 200.
Proof.
  unfold serve. destruct (method req =? "OPTIONS")%string; [reflexivity|].
  destruct (json req) as [e|v]; [reflexivity|].
  destruct (destructure v) as [e|[t m]]; [reflexivity|].
  destruct (fetch env _) as [e|r]; [reflexivity|].
  destruct (up_text r); reflexivity.
Qed.

(** C7, as amended: every request, preflight or not, is answered with HTTP
    status 200.  A request that is not a preflight gets a JSON envelope:
    when the body was read, the gateway answered and its text was read, the
    envelope is [{success, status, data}] with [success] the gateway's
    [ok] flag, [status] its status code and [data] the parsed text, or
    [{raw: text}] when the text is not JSON; when reading the body, the
    destructuring, the call of the gateway or reading its text throws, the
    envelope is [{success: false, error: String(error)}], with no [status]
    and no [data]. *)
Theorem serve_always_200_with_envelope (env : Env) (req : Request) :
  status (snd (serve env req)) = 200
  /\ ((method req =? "OPTIONS")%string = false ->
      (exists v target message r raw,
          json req = inr v
          /\ destructure v = inr (target, message)
          /\ fetch env (sendRequest (FONNTE_TOKEN env) target message) = inr r
          /\ up_text r = inr raw
          /\ body (snd (serve env req)) = fullBody env r raw
          /\ (JSON_parse env raw = None ->
              body (snd (serve env req))
              = Stringify
                  (JObj [ ("success", JBool (up_ok r));
                          ("status", JNum (Js.string_of_Z (up_status r)));
                          ("data", JObj [ ("raw", JStr raw) ]) ])))
      \/ (exists e,
             body (snd (serve env req)) = errorBody e
             /\ describedEnvelope (body (snd (serve env req))) = false
             /\ (json req = inl e
                 \/ (exists v, json req = inr v /\ destructure v = inl e)
                 \/ (exists v target message,
                        json req = inr v
                        /\ destructure v = inr (target, message)
                        /\ (fetch env
                              (sendRequest (FONNTE_TOKEN env) target message)
                            = inl e
                            \/ exists r,
                                 fetch env
                                   (sendRequest (FONNTE_TOKEN env) target
                                      message)
                                 = inr r
                                 /\ up_text r = inl e))))).
Proof.
  split; [apply serve_status|].
  intro Hm. unfold serve. rewrite Hm.
  destruct (json req) as [e|v] eqn:Hj.
  { right. exists e. simpl. auto. }
  destruct (destructure v) as [e|[target message]] eqn:Hd.
  { right. exists e. simpl. split; [reflexivity|]. split; [reflexivity|].
    right. left. now exists v. }
  destruct (fetch env (sendRequest (FONNTE_TOKEN env) target message))
    as [e|r] eqn:Hf.
  { right. exists e. simpl. split; [reflexivity|]. split; [reflexivity|].
    right. right. exists v, target, message. auto. }
  destruct (up_text r) as [e|raw] eqn:Ht.
  { right. exists e. simpl. split; [reflexivity|]. split; [reflexivity|].
    right. right. exists v, target, message.
    split; [reflexivity|]. split; [exact Hd|]. right. now exists r. }
  left. exists v, target, message, r, raw. simpl.
  split; [reflexivity|]. split; [exact Hd|]. split; [exact Hf|].
  split; [exact Ht|]. split; [reflexivity|].
  intro Hp. unfold envelope. now rewrite Hp.
Qed.

Lemma serve_always_200_with_envelope_witness :
  status (snd (serve Examples.gatewayHtml (Examples.sendTo Examples.twoNumbers)))
  = 200
  /\ body (snd (serve Examples.gatewayHtml
                  (Examples.sendTo Examples.twoNumbers)))
     = Stringify
         (JObj [ ("success", JBool false);
                 ("status", JNum "502");
                 ("data", JObj [ ("raw", JStr "<html>Bad Gateway</html>") ]) ]).
Proof.
  destruct (serve_always_200_with_envelope Examples.gatewayHtml
              (Examples.sendTo Examples.twoNumbers)) as [H200 Henvelope].
  split; [exact H200|].
  destruct (Henvelope eq_refl)
    as [(v & target & message & r & raw & _ & _ & Hf & Ht & _ & Hraw)
       | (e & Hbody & _)].
  - simpl in Hf. injection Hf as <-. simpl in Ht. injection Ht as <-.
    apply Hraw. reflexivity.
  - discriminate Hbody.
Defined.

(** C7 as stated fails when a step throws: with a body that is not JSON,
    and with a gateway that cannot be reached, the answer is still HTTP 200
    but its envelope has neither [status] nor [data]. *)
Lemma thrown_error_envelope_lacks_status_and_data :
  (method Examples.postGarbage =? "OPTIONS")%string = false
  /\ body (snd (serve Examples.gatewayUp Examples.postGarbage))
     = Stringify (JObj [ ("success", JBool false);
                         ("error", JStr "SyntaxError: Unexpected token") ])
  /\ describedEnvelope (body (snd (serve Examples.gatewayUp Examples.postGarbage)))
     = false
  /\ body (snd (serve Examples.gatewayDown
                  (Examples.sendTo Examples.twoNumbers)))
     = Stringify (JObj [ ("success", JBool false);
                         ("error", JStr "TypeError: error sending request") ])
  /\ describedEnvelope
       (body (snd (serve Examples.gatewayDown
                     (Examples.sendTo Examples.twoNumbers))))
     = false.
Proof. repeat split. Qed.

(** C10, as amended: for an array target the falsy elements (null, false,
    0, the empty string) are removed before the comma-join, so an array of
    strings is forwarded as the comma-join of its non-empty elements and
    ["628111","","628222"] as "628111,628222"; for a target that is not an
    array the forwarded value is [String(target)] trimmed when the target
    is truthy, and the empty string for every falsy target: null,
    undefined, false, 0 and the empty string. *)
Theorem target_normalisation :
  (forall items,
      formattedTarget (Some (JArr items)) = join "," (filter truthy items)
      /\ Forall (fun v => truthy v = true) (filter truthy items))
  /\ (forall strs,
        formattedTarget (Some (JArr (map JStr strs)))
        = concat "," (filter nonEmpty strs)
        /\ Forall (fun s => s <> "") (filter nonEmpty strs))
  /\ formattedTarget (Some Examples.twoNumbersAndBlank) = "628111,628222"
  /\ (forall v, (forall items, v <> JArr items) ->
        formattedTarget (Some v)
        = if truthy v then Js.trim (toString v) else "")
  /\ formattedTarget None = ""
  /\ formattedTarget (Some JNull) = ""
  /\ formattedTarget (Some (JBool false)) = ""
  /\ formattedTarget (Some (JNum "0")) = ""
  /\ formattedTarget (Some (JStr "")) = ""
  /\ (forall s, formattedTarget (Some (JStr s)) = Js.trim s).
Proof.
  split.
  { intro items. split; [reflexivity|].
    apply Forall_forall. intros v Hv. now apply filter_In in Hv. }
  split.
  { intro strs. split; [apply formattedTarget_strings | apply nonEmpty_kept]. }
  split; [reflexivity|].
  split; [|repeat split; apply formattedTarget_string].
  intros v Harr. destruct v as [|b|r|s|items|fields]; simpl.
  - reflexivity.
  - destruct b; reflexivity.
  - destruct (r =? "0")%string; reflexivity.
  - destruct (s =? "")%string; reflexivity.
  - now destruct (Harr items).
  - reflexivity.
Qed.

Lemma target_normalisation_witness :
  formattedTarget (Some (JStr "  628111 ")) = "628111".
Proof.
  destruct target_normalisation as (_ & _ & _ & Hscalar & _).
  rewrite (Hscalar (JStr "  628111 ")); [reflexivity | discriminate].
Defined.

(** C10 as stated fails on the falsy scalars other than null and
    undefined ([false] and [0] are forwarded as the empty string, not as
    "false" and "0"), and an array can be forwarded with an empty segment
    when an element is an empty array. *)
Lemma falsy_scalars_forwarded_empty :
  formattedTarget (Some (JBool false)) = ""
  /\ stringTrimmedOrEmpty (Some (JBool false)) = "false"
  /\ formattedTarget (Some (JNum "0")) = ""
  /\ stringTrimmedOrEmpty (Some (JNum "0")) = "0"
  /\ formattedTarget (Some (JBool false))
     <> stringTrimmedOrEmpty (Some (JBool false))
  /\ formattedTarget (Some (JArr [ JStr "628111"; JArr []; JStr "628222" ]))
     = "628111,,628222".
Proof.
  repeat split. discriminate.
Qed.

End AdapterFacts.

(** * Properties of the transfer workflow and the reminders *)

Module WorkflowFacts.

Import Supabase DriverNotifications.

(** ** The backend update *)

Lemma updateRow_id (i : Z) (p : Patch) (t : AirportTransfer) :
  id (updateRow i p t) = id t.
Proof. unfold updateRow. destruct (id t =? i); reflexivity. Qed.

Lemma updateRow_hit (i : Z) (p : Patch) (t : AirportTransfer) :
  id t = i -> updateRow i p t = applyPatch p t.
Proof. intros <-. unfold updateRow. now rewrite Z.eqb_refl. Qed.

Lemma updateRow_miss (i : Z) (p : Patch) (t : AirportTransfer) :
  id t <> i -> updateRow i p t = t.
Proof.
  intro H. unfold updateRow. destruct (id t =? i) eqn:E; [|reflexivity].
  apply Z.eqb_eq in E. contradiction.
Qed.

(** Every row with the identifier carries the patch afterwards. *)
Lemma patched_rows (i : Z) (p : Patch) (rows : list AirportTransfer)
  (t' : AirportTransfer) :
  In t' (map (updateRow i p) rows) -> id t' = i ->
  status t' = patch_status p
  /\ (forall d, patch_driver_id p = Some d -> driver_id t' = Some d).
Proof.
  intros Hin Hid. apply in_map_iff in Hin as (t & <- & _).
  rewrite updateRow_id in Hid. rewrite (updateRow_hit i p t Hid).
  split; [reflexivity|]. intros d Hd. simpl. now rewrite Hd.
Qed.

(** Every row that had the identifier is still there, patched. *)
Lemma patched_rows_present (i : Z) (p : Patch) (rows : list AirportTransfer)
  (t : AirportTransfer) :
  In t rows -> id t = i -> In (applyPatch p t) (map (updateRow i p) rows).
Proof.
  intros Hin Hid. rewrite <- (updateRow_hit i p t Hid). now apply in_map.
Qed.

(** Rows with another identifier are not touched. *)
Lemma other_rows_kept (i : Z) (p : Patch) (rows : list AirportTransfer)
  (t : AirportTransfer) :
  In t rows -> id t <> i -> In t (map (updateRow i p) rows).
Proof.
  intros Hin Hid. rewrite <- (updateRow_miss i p t Hid) at 1. now apply in_map.
Qed.

(** Patching twice with the same patch is patching once. *)
Lemma updateRow_idempotent (i : Z) (p : Patch) (t : AirportTransfer) :
  updateRow i p (updateRow i p t) = updateRow i p t.
Proof.
  unfold updateRow. destruct (id t =? i) eqn:E; simpl; rewrite E; [|reflexivity].
  unfold applyPatch. simpl. destruct (patch_driver_id p); reflexivity.
Qed.

Lemma update_logged (b : Backend) (i : Z) (p : Patch) :
  updates (fst (update b i p)) = (i, p) :: updates b.
Proof. reflexivity. Qed.

Lemma update_refused (b : Backend) (i : Z) (p : Patch) :
  update_denied b (airport_transfer b) i p = true ->
  snd (update b i p) = Error
  /\ airport_transfer (fst (update b i p)) = airport_transfer b.
Proof. intro H. unfold update. simpl. now rewrite H. Qed.

Lemma update_done (b : Backend) (i : Z) (p : Patch) :
  update_denied b (airport_transfer b) i p = false ->
  snd (update b i p)
  = Data (filter (fun t => id t =? i) (map (updateRow i p) (airport_transfer b)))
  /\ airport_transfer (fst (update b i p))
     = map (updateRow i p) (airport_transfer b).
Proof. intro H. unfold update. simpl. now rewrite H. Qed.

(** The denial policy and the read faults are part of the backend's
    configuration: no update changes them. *)
Lemma update_keeps_policy (b : Backend) (i : Z) (p : Patch) :
  update_denied (fst (update b i p)) = update_denied b
  /\ select_fails (fst (update b i p)) = select_fails b
  /\ session (fst (update b i p)) = session b
  /\ drivers (fst (update b i p)) = drivers b
  /\ bookings (fst (update b i p)) = bookings b.
Proof. repeat split. Qed.

(** ** Accepting a transfer *)

Lemma handleAccept_resolved (b : Backend) (i : Z) (s : State) (user : User)
  (d : string) :
  session b = Some user ->
  driverByEmailEq b (user_email user) = Data d ->
  handleAccept b i s
  = if update_denied b (airport_transfer b) i (acceptPatch d)
    then (fst (update b i (acceptPatch d)),
          toast (destructive "Failed to accept the transfer.") s, false)
    else (fst (update b i (acceptPatch d)),
          toast {| title := "Success";
                   description := "Transfer accepted and driver assigned.";
                   variant := None |}
            (setTransfers (reconcile i (acceptPatch d) (transfers s)) s),
          true).
Proof.
  intros Hs Hd. unfold handleAccept. rewrite Hs, Hd.
  fold (acceptPatch d). unfold update.
  destruct (update_denied b (airport_transfer b) i (acceptPatch d)); reflexivity.
Qed.

(** C1: when the session resolves to a driver record, accept sends the
    update payload [{status: confirmed, driver_id: d}] for the transfer,
    with [d] the resolved driver identifier; and once the backend has taken
    the update, every entry of the in-memory list with that identifier (the
    pending one the button belongs to) is reconciled to status confirmed
    and driver [d], as is every persisted row with that identifier, the
    other entries stay as they were, and the refresh is requested. *)
Theorem accept_confirms_with_caller (b : Backend) (transferId : Z) (s : State)
  (user : User) (d : string) :
  session b = Some user ->
  driverByEmailEq b (user_email user) = Data d ->
  let h := handleAccept b transferId s in
  updates (backendOf h)
  = (transferId, {| patch_status := confirmed; patch_driver_id := Some d |})
      :: updates b
  /\ (update_denied b (airport_transfer b) transferId (acceptPatch d) = false ->
      refreshOf h = true
      /\ (forall t, In t (transfers s) -> id t = transferId ->
          status t = pending ->
          exists t', In t' (transfers (stateOf h))
                     /\ id t' = transferId
                     /\ status t' = confirmed
                     /\ driver_id t' = Some d)
      /\ (forall t', In t' (transfers (stateOf h)) -> id t' = transferId ->
          status t' = confirmed /\ driver_id t' = Some d)
      /\ (forall t, In t (transfers s) -> id t <> transferId ->
          In t (transfers (stateOf h)))
      /\ (forall r, In r (airport_transfer b) -> id r = transferId ->
          exists r', In r' (airport_transfer (backendOf h))
                     /\ id r' = transferId
                     /\ status r' = confirmed
                     /\ driver_id r' = Some d)
      /\ (forall r', In r' (airport_transfer (backendOf h)) ->
          id r' = transferId ->
          status r' = confirmed /\ driver_id r' = Some d)).
Proof.
  intros Hs Hd h. subst h. rewrite (handleAccept_resolved b transferId s user d Hs Hd).
  split.
  { destruct (update_denied b (airport_transfer b) transferId (acceptPatch d));
      reflexivity. }
  intro Hok. rewrite Hok. unfold backendOf, stateOf, refreshOf.
  cbv beta iota delta [fst snd].
  destruct (update_done b transferId (acceptPatch d) Hok) as [_ Hrows].
  cbv beta iota delta [fst snd] in Hrows.
  rewrite Hrows. simpl transfers. unfold reconcile.
  split; [reflexivity|]. split; [|split; [|split; [|split]]].
  - intros t Hin Hid _. exists (applyPatch (acceptPatch d) t).
    split; [now apply patched_rows_present|]. now split.
  - intros t' Hin Hid.
    destruct (patched_rows transferId (acceptPatch d) _ t' Hin Hid) as [H1 H2].
    split; [exact H1 | now apply H2].
  - intros t Hin Hid. now apply other_rows_kept.
  - intros r Hin Hid. exists (applyPatch (acceptPatch d) r).
    split; [now apply patched_rows_present|]. now split.
  - intros r' Hin Hid.
    destruct (patched_rows transferId (acceptPatch d) _ r' Hin Hid) as [H1 H2].
    split; [exact H1 | now apply H2].
Qed.

Lemma accept_confirms_with_caller_witness :
  updates (backendOf (handleAccept (Examples.backend "Driver@Example.com") 7
                        Examples.listed))
  = [ (7, {| patch_status := confirmed; patch_driver_id := Some "drv-1" |}) ]
  /\ (forall t',
         In t' (transfers (stateOf (handleAccept
                                      (Examples.backend "Driver@Example.com") 7
                                      Examples.listed))) ->
         id t' = 7 -> status t' = confirmed /\ driver_id t' = Some "drv-1").
Proof.
  destruct (accept_confirms_with_caller (Examples.backend "Driver@Example.com")
              7 Examples.listed {| user_email := "Driver@Example.com" |}
              "drv-1" eq_refl eq_refl) as [Hsent Hdone].
  split; [exact Hsent|].
  destruct (Hdone eq_refl) as (_ & _ & Hall & _). exact Hall.
Defined.

(** C2: when accept cannot resolve the caller (no authenticated user, or
    no single driver record for the session email) or the backend refuses
    the update, the handler shows a destructive toast and changes nothing
    else: the component state is otherwise the one before the call (in
    particular the transfer list), the persisted rows are the ones before
    the call, no refresh is requested, and when the caller is not resolved
    no update request is sent at all. *)
Theorem accept_failure_changes_nothing (b : Backend) (transferId : Z)
  (s : State) :
  (session b = None
   \/ (exists user, session b = Some user
                    /\ driverByEmailEq b (user_email user) = Error)
   \/ (exists user d, session b = Some user
                      /\ driverByEmailEq b (user_email user) = Data d
                      /\ update_denied b (airport_transfer b) transferId
                           (acceptPatch d) = true)) ->
  let h := handleAccept b transferId s in
  (exists descr, stateOf h = toast (destructive descr) s)
  /\ transfers (stateOf h) = transfers s
  /\ airport_transfer (backendOf h) = airport_transfer b
  /\ refreshOf h = false
  /\ (forall historyMode br, thenRefresh historyMode br h = (backendOf h, stateOf h))
  /\ ((session b = None
       \/ exists user, session b = Some user
                       /\ driverByEmailEq b (user_email user) = Error) ->
      backendOf h = b).
Proof.
  intros [Hs | [(user & Hs & Hd) | (user & d & Hs & Hd & Hden)]] h; subst h.
  - unfold handleAccept. rewrite Hs. unfold backendOf, stateOf, refreshOf. simpl.
    repeat split; eauto.
  - unfold handleAccept. rewrite Hs, Hd. unfold backendOf, stateOf, refreshOf.
    simpl. repeat split; eauto.
  - rewrite (handleAccept_resolved b transferId s user d Hs Hd), Hden.
    unfold backendOf, stateOf, refreshOf. simpl fst. simpl snd.
    destruct (update_refused b transferId (acceptPatch d) Hden) as [_ Hrows].
    split; [eauto|]. split; [reflexivity|]. split; [exact Hrows|].
    split; [reflexivity|]. split; [reflexivity|].
    intros [Hn | (u & Hu & He)]; congruence.
Qed.

Lemma accept_failure_changes_nothing_witness :
  transfers (stateOf (handleAccept Examples.signedOut 7 Examples.listed))
  = transfers Examples.listed
  /\ backendOf (handleAccept Examples.signedOut 7 Examples.listed)
     = Examples.signedOut.
Proof.
  destruct (accept_failure_changes_nothing Examples.signedOut 7 Examples.listed
              (or_introl eq_refl)) as (_ & Hlist & _ & _ & _ & Hsame).
  split; [exact Hlist|]. apply Hsame. left. reflexivity.
Defined.

(** ** Fetching the transfer list *)

Lemma statusIn_active (t : AirportTransfer) :
  statusIn (statusGroup false) t = true ->
  status t <> completed /\ status t <> canceled.
Proof.
  unfold statusIn, statusGroup. simpl.
  destruct (status t); simpl; intro H; split; discriminate.
Qed.

Lemma statusIn_history (t : AirportTransfer) :
  statusIn (statusGroup true) t = true ->
  status t <> pending /\ status t <> confirmed.
Proof.
  unfold statusIn, statusGroup. simpl.
  destruct (status t); simpl; intro H; split; discriminate.
Qed.

Lemma hasDriver_eq (d : string) (t : AirportTransfer) :
  hasDriver d t = true -> driver_id t = Some d.
Proof.
  unfold hasDriver. destruct (driver_id t) as [d'|]; [|discriminate].
  intro H. apply String.eqb_eq in H. now subst.
Qed.

Lemma transfersOf_rows (b : Backend) (d : string) (allowed : list Status)
  (data : list AirportTransfer) (t : AirportTransfer) :
  transfersOf b d allowed = Data data -> In t data ->
  In t (airport_transfer b) /\ hasDriver d t = true /\ statusIn allowed t = true.
Proof.
  unfold transfersOf. destruct (select_fails b airport_transfer_table);
    [discriminate|].
  intros [= <-] Hin. apply filter_In in Hin as [Hin Hf].
  apply andb_true_iff in Hf. tauto.
Qed.

(** The state a successful fetch leaves, given what the queries returned. *)
Lemma fetchAirportTransfers_listed (historyMode : bool) (br : Browser)
  (b : Backend) (s : State) (user : User) (d : string)
  (data : list AirportTransfer) :
  session b = Some user ->
  driverByEmailIlike b (user_email user) = Data (Some d) ->
  transfersOf b d (statusGroup historyMode) = Data data ->
  let s' := fetchAirportTransfers historyMode br b s in
  transfers s' = data /\ loading s' = false /\ driverId s' = Some d
  /\ overdueMessages s'
     = match unpaidBookingsOf b d with
       | Data bookingsData => deriveMessages br bookingsData
       | Error => overdueMessages s
       end.
Proof.
  intros Hs Hd Ht. unfold fetchAirportTransfers. rewrite Hs, Hd, Ht.
  unfold fetchOverdueMessages.
  destruct (unpaidBookingsOf b d); destruct data; simpl; repeat split.
Qed.

(** C3: whatever the driver identifier, the rows the query returns in
    active mode are never completed or canceled and the rows it returns in
    history mode are never pending or confirmed; after a fetch whose
    queries succeed, the in-memory list is exactly those rows; and an
    empty result does not abort the fetch: the list is set to empty, a
    notice is put in the error cell, the reminders are still fetched and
    [loading] is cleared. *)
Theorem fetched_transfers_match_mode (b : Backend) (d : string) :
  (forall data, transfersOf b d (statusGroup false) = Data data ->
     Forall (fun t => status t <> completed /\ status t <> canceled) data)
  /\ (forall data, transfersOf b d (statusGroup true) = Data data ->
        Forall (fun t => status t <> pending /\ status t <> confirmed) data)
  /\ (forall historyMode br s user data,
         session b = Some user ->
         driverByEmailIlike b (user_email user) = Data (Some d) ->
         transfersOf b d (statusGroup historyMode) = Data data ->
         let s' := fetchAirportTransfers historyMode br b s in
         transfers s' = data
         /\ Forall (fun t =>
                      if historyMode
                      then status t <> pending /\ status t <> confirmed
                      else status t <> completed /\ status t <> canceled)
              (transfers s')
         /\ (data = [] ->
             loading s' = false
             /\ error s'
                = Some (if historyMode
                        then "No airport transfer history found."
                        else "No pending transfers assigned to you.")
             /\ forall bookingsData,
                  unpaidBookingsOf b d = Data bookingsData ->
                  overdueMessages s' = deriveMessages br bookingsData)).
Proof.
  assert (Hact : forall data, transfersOf b d (statusGroup false) = Data data ->
            Forall (fun t => status t <> completed /\ status t <> canceled) data).
  { intros data Hq. apply Forall_forall. intros t Hin.
    destruct (transfersOf_rows b d _ data t Hq Hin) as (_ & _ & Hst).
    now apply statusIn_active. }
  assert (Hhis : forall data, transfersOf b d (statusGroup true) = Data data ->
            Forall (fun t => status t <> pending /\ status t <> confirmed) data).
  { intros data Hq. apply Forall_forall. intros t Hin.
    destruct (transfersOf_rows b d _ data t Hq Hin) as (_ & _ & Hst).
    now apply statusIn_history. }
  split; [exact Hact|]. split; [exact Hhis|].
  intros historyMode br s user data Hs Hd Hq s'.
  destruct (fetchAirportTransfers_listed historyMode br b s user d data Hs Hd Hq)
    as (Hlist & Hload & _ & Hmsgs).
  fold s' in Hlist, Hload, Hmsgs.
  split; [exact Hlist|]. split.
  { rewrite Hlist. destruct historyMode; [now apply Hhis | now apply Hact]. }
  intros ->. split; [exact Hload|]. split.
  - subst s'. unfold fetchAirportTransfers. rewrite Hs, Hd, Hq.
    unfold fetchOverdueMessages. destruct (unpaidBookingsOf b d); reflexivity.
  - intros bookingsData Hb. rewrite Hmsgs, Hb. reflexivity.
Qed.

Lemma fetched_transfers_match_mode_witness :
  Forall (fun t => status t <> completed /\ status t <> canceled)
    (transfers (fetchAirportTransfers false Examples.browser
                  (Examples.backend "driver@example.com") initialState)).
Proof.
  destruct (fetched_transfers_match_mode (Examples.backend "driver@example.com")
              "drv-1") as (_ & _ & Hfetch).
  destruct (Hfetch false Examples.browser initialState
              {| user_email := "driver@example.com" |}
              [ Examples.transfer 7 pending (Some "drv-1");
                Examples.transfer 8 confirmed (Some "drv-1") ]
              eq_refl eq_refl eq_refl) as (_ & Hall & _).
  exact Hall.
Defined.

(** ** Overdue reminders *)

(** [ceil_div a b] is the least integer not below [a / b]. *)
Lemma ceil_div_spec (a b : Z) :
  0 < b -> b * (Js.ceil_div a b - 1) < a <= b * Js.ceil_div a b.
Proof.
  intro Hb. unfold Js.ceil_div.
  pose proof (Z.div_mod (- a) b ltac:(lia)) as Hdm.
  pose proof (Z.mod_pos_bound (- a) b Hb) as Hm. nia.
Qed.

Lemma ceil_div_exact (k b : Z) : 0 < b -> Js.ceil_div (k * b) b = k.
Proof.
  intro Hb. unfold Js.ceil_div.
  replace (- (k * b)) with ((- k) * b) by ring.
  rewrite Z.div_mul by lia. lia.
Qed.

(** The number of days is positive exactly when the end date is in the
    past, be it by one millisecond. *)
Lemma ceil_div_pos (a b : Z) : 0 < b -> (0 < Js.ceil_div a b <-> 0 < a).
Proof.
  intro Hb. pose proof (ceil_div_spec a b Hb). split; intro; nia.
Qed.

Lemma msPerDay_pos : 0 < msPerDay.
Proof. reflexivity. Qed.

Lemma getTime_nonempty (br : Browser) (e : string) (t : Z) :
  getTime br e = Some t -> (e =? "")%string = false.
Proof. unfold getTime. destruct (e =? "")%string; [discriminate | reflexivity]. Qed.

Lemma overdueMessagesOf_late (br : Browser) (k : Booking) (e : string) (t : Z) :
  end_date k = Some e -> getTime br e = Some t ->
  0 < Js.ceil_div (today br - t) msPerDay ->
  overdueMessagesOf br k
  = [ reminder br k e (Js.ceil_div (today br - t) msPerDay) ].
Proof.
  intros He Ht Hpos. unfold overdueMessagesOf.
  rewrite He, (getTime_nonempty br e t Ht), Ht.
  apply Z.ltb_lt in Hpos. now rewrite Hpos.
Qed.

Lemma overdueMessagesOf_not_late (br : Browser) (k : Booking) :
  (forall e t, end_date k = Some e -> getTime br e = Some t ->
               Js.ceil_div (today br - t) msPerDay <= 0) ->
  overdueMessagesOf br k = [].
Proof.
  intro H. unfold overdueMessagesOf.
  destruct (end_date k) as [e|]; [|reflexivity].
  destruct (e =? "")%string; [reflexivity|].
  destruct (getTime br e) as [t|] eqn:Ht; [|reflexivity].
  specialize (H e t eq_refl Ht). apply Z.ltb_ge in H. now rewrite H.
Qed.

(** Days are rounded up: an end date between [n] and [n + 1] days before
    now, the latter included, is [n + 1] days overdue.  A booking whose
    end date is five days and one millisecond old counts six days. *)
Lemma overdue_days_round_up (br : Browser) (k : Booking) (e : string)
  (t n : Z) :
  end_date k = Some e -> getTime br e = Some t -> 0 <= n ->
  n * msPerDay < today br - t <= (n + 1) * msPerDay ->
  overdueMessagesOf br k = [ reminder br k e (n + 1) ].
Proof.
  intros He Ht Hn Hrange.
  assert (Hdays : Js.ceil_div (today br - t) msPerDay = n + 1).
  { pose proof (ceil_div_spec (today br - t) msPerDay msPerDay_pos) as Hc.
    pose proof msPerDay_pos as Hpos. nia. }
  rewrite (overdueMessagesOf_late br k e t He Ht); [now rewrite Hdays|].
  rewrite Hdays. lia.
Qed.

(** The messages of a list of bookings are those of each booking, in
    order. *)
Lemma deriveMessages_app (br : Browser) (ks1 ks2 : list Booking) :
  deriveMessages br (ks1 ++ ks2)%list
  = (deriveMessages br ks1 ++ deriveMessages br ks2)%list.
Proof. apply flat_map_app. Qed.

Lemma deriveMessages_one (br : Browser) (k : Booking) :
  deriveMessages br [k] = overdueMessagesOf br k.
Proof. unfold deriveMessages. simpl. apply app_nil_r. Qed.

(** C4: a booking with a positive remaining payment is returned by the
    bookings query of its driver, and the deriver emits exactly one
    message for it if and only if the booking has an end date whose
    distance to now, in days rounded up, is positive; the message carries
    that number of days and the remaining payment.  A booking with no end
    date, or whose number of days is not positive, gives no message.  With
    the end date five days before now and 500000 remaining there is
    exactly one message, with 5 days and amount 500000; with the end date
    one day after now there is none. *)
Theorem overdue_message_iff_late (br : Browser) (k : Booking) :
  0 < remaining_payments k ->
  (forall b s, select_fails b bookings_table = false -> bookings b = [k] ->
     overdueMessages (fetchOverdueMessages br b (user_id k) s)
     = deriveMessages br [k])
  /\ ((exists m, deriveMessages br [k] = [m])
      <-> (exists e t, end_date k = Some e /\ getTime br e = Some t
                       /\ 0 < Js.ceil_div (today br - t) msPerDay))
  /\ (forall e t, end_date k = Some e -> getTime br e = Some t ->
        0 < Js.ceil_div (today br - t) msPerDay ->
        exists m, deriveMessages br [k] = [m]
                  /\ days_overdue m = Some (Js.ceil_div (today br - t) msPerDay)
                  /\ amount m = Some (remaining_payments k)
                  /\ is_read m = false)
  /\ ((end_date k = None
       \/ forall e t, end_date k = Some e -> getTime br e = Some t ->
                      Js.ceil_div (today br - t) msPerDay <= 0) ->
      deriveMessages br [k] = [])
  /\ (forall e, end_date k = Some e ->
        getTime br e = Some (today br - 5 * msPerDay) ->
        remaining_payments k = 500000 ->
        exists m, deriveMessages br [k] = [m]
                  /\ days_overdue m = Some 5 /\ amount m = Some 500000)
  /\ (forall e, end_date k = Some e ->
        getTime br e = Some (today br + 1 * msPerDay) ->
        deriveMessages br [k] = []).
Proof.
  intro Hpay. rewrite deriveMessages_one.
  assert (Hlate : forall e t, end_date k = Some e -> getTime br e = Some t ->
            0 < Js.ceil_div (today br - t) msPerDay ->
            exists m, overdueMessagesOf br k = [m]
                      /\ days_overdue m
                         = Some (Js.ceil_div (today br - t) msPerDay)
                      /\ amount m = Some (remaining_payments k)
                      /\ is_read m = false).
  { intros e t He Ht Hpos. rewrite (overdueMessagesOf_late br k e t He Ht Hpos).
    eexists. split; [reflexivity|]. repeat split. }
  split.
  { intros b s Hsel Hb. unfold fetchOverdueMessages, unpaidBookingsOf.
    rewrite Hsel, Hb. simpl. rewrite String.eqb_refl.
    apply Z.ltb_lt in Hpay. rewrite Hpay. simpl.
    unfold deriveMessages. simpl. apply app_nil_r. }
  split.
  { split.
    - intros [m Hm].
      destruct (end_date k) as [e|] eqn:He.
      + destruct (getTime br e) as [t|] eqn:Ht.
        * destruct (Z.ltb_spec 0 (Js.ceil_div (today br - t) msPerDay))
            as [Hpos|Hle].
          -- now exists e, t.
          -- rewrite overdueMessagesOf_not_late in Hm; [discriminate|].
             intros e' t' He' Ht'. congruence.
        * rewrite overdueMessagesOf_not_late in Hm; [discriminate|].
          intros e' t' He' Ht'. congruence.
      + rewrite overdueMessagesOf_not_late in Hm; [discriminate|].
        intros e' t' He'. congruence.
    - intros (e & t & He & Ht & Hpos).
      destruct (Hlate e t He Ht Hpos) as (m & Hm & _). now exists m. }
  split; [exact Hlate|].
  split.
  { intros [Hnone | Hle].
    - apply overdueMessagesOf_not_late. intros e t He. congruence.
    - now apply overdueMessagesOf_not_late. }
  split.
  { intros e He Ht Hamount.
    assert (Hdays : Js.ceil_div (today br - (today br - 5 * msPerDay)) msPerDay
                    = 5).
    { replace (today br - (today br - 5 * msPerDay)) with (5 * msPerDay) by ring.
      apply ceil_div_exact, msPerDay_pos. }
    destruct (Hlate e _ He Ht) as (m & Hm & Hd & Ha & _); [rewrite Hdays; lia|].
    exists m. rewrite Hdays in Hd. rewrite Hamount in Ha. auto. }
  intros e He Ht. apply overdueMessagesOf_not_late.
  intros e' t' He' Ht'.
  assert (t' = today br + 1 * msPerDay) by congruence. subst t'.
  replace (today br - (today br + 1 * msPerDay)) with ((-1) * msPerDay) by ring.
  rewrite ceil_div_exact by apply msPerDay_pos. lia.
Qed.

Lemma overdue_message_iff_late_witness :
  exists m, deriveMessages Examples.browser [ Examples.lateBooking ] = [m]
            /\ days_overdue m = Some 5 /\ amount m = Some 500000.
Proof.
  destruct (overdue_message_iff_late Examples.browser Examples.lateBooking
              eq_refl) as (_ & _ & _ & _ & Hfive & _).
  apply (Hfive "2025-01-10"); reflexivity.
Defined.

(** ** Resolving the driver from the session email *)

(** On a pattern with no special character, [ILIKE] is equality up to the
    case of the letters. *)
Lemma ilike_plain (pattern s : string) :
  plain pattern = true ->
  (ilike pattern s = true <-> Js.lowerString pattern = Js.lowerString s).
Proof.
  revert s. induction pattern as [|c rest IH]; intros s Hp.
  - destruct s; simpl; split; congruence.
  - simpl in Hp. apply andb_true_iff in Hp as [Hc Hrest].
    unfold special in Hc. apply negb_true_iff in Hc.
    apply orb_false_iff in Hc as [Hc Hbs].
    apply orb_false_iff in Hc as [Hc Hus].
    apply orb_false_iff in Hc as [Hpc Hst].
    simpl. rewrite Hpc, Hst, Hus, Hbs. simpl.
    destruct s as [|d s']; simpl; [split; discriminate|].
    rewrite andb_true_iff, Ascii.eqb_eq, (IH s' Hrest).
    split; [intros [-> ->]; reflexivity | intros [= -> ->]; now split].
Qed.

(** With one driver on file, a session email that differs from the stored
    one only in the case of its letters resolves the driver in the list
    fetch and fails to resolve it in accept. *)
Lemma case_variant_resolution (b : Backend) (drv : Driver) (email : string) :
  select_fails b drivers_table = false ->
  drivers b = [drv] ->
  plain email = true ->
  Js.lowerString email = Js.lowerString (drv_email drv) ->
  email <> drv_email drv ->
  driverByEmailIlike b email = Data (Some (drv_id drv))
  /\ driverByEmailEq b email = Error.
Proof.
  intros Hsel Hd Hp Hlow Hne. unfold driverByEmailIlike, driverByEmailEq.
  rewrite Hsel, Hd. simpl.
  apply (ilike_plain email (drv_email drv) Hp) in Hlow. rewrite Hlow.
  destruct (drv_email drv =? email)%string eqn:E.
  - apply String.eqb_eq in E. now destruct Hne.
  - now split.
Qed.

(** C5, at the failing input: the stored email is "Driver@Example.com" and
    the session email "driver@example.com".  The list fetch resolves the
    driver, accept does not and answers "Driver ID not found." without
    sending an update; with the session email in the stored case accept
    goes through. *)
Theorem accept_email_match_is_case_sensitive :
  driverId (fetchAirportTransfers false Examples.browser
              (Examples.backend "driver@example.com") initialState)
  = Some "drv-1"
  /\ handleAccept (Examples.backend "driver@example.com") 7 Examples.listed
     = (Examples.backend "driver@example.com",
        toast (destructive "Driver ID not found.") Examples.listed, false)
  /\ refreshOf (handleAccept (Examples.backend "Driver@Example.com") 7
                  Examples.listed)
     = true.
Proof. repeat split. Qed.

(** ** Completing a transfer *)

Lemma handleComplete_cases (b : Backend) (i : Z) (s : State) :
  handleComplete b i s
  = if update_denied b (airport_transfer b) i completePatch
    then (fst (update b i completePatch),
          toast (destructive "Failed to mark the transfer as completed.") s,
          false)
    else (fst (update b i completePatch),
          toast completedToast
            (setTransfers (reconcile i completePatch (transfers s)) s),
          true).
Proof.
  unfold handleComplete. fold completePatch. fold completedToast. unfold update.
  destruct (update_denied b (airport_transfer b) i completePatch); reflexivity.
Qed.

(** C6: complete sends the update [{status: completed}] for the identifier
    whatever the status of the transfer, in memory or persisted: the
    handler reads neither.  Once the backend has taken the update, every
    persisted row with the identifier has status completed (and keeps its
    driver), and so has every such entry of the in-memory list.  A second
    call on the same identifier leaves the persisted rows exactly as the
    first call left them, and when the backend takes that update too the
    second call shows the completion toast and no error. *)
Theorem complete_unconditional_idempotent (b : Backend) (transferId : Z)
  (s : State) :
  let h := handleComplete b transferId s in
  updates (backendOf h) = (transferId, completePatch) :: updates b
  /\ (update_denied b (airport_transfer b) transferId completePatch = false ->
      refreshOf h = true
      /\ (forall r, In r (airport_transfer b) -> id r = transferId ->
          exists r', In r' (airport_transfer (backendOf h))
                     /\ id r' = transferId
                     /\ status r' = completed
                     /\ driver_id r' = driver_id r)
      /\ (forall r', In r' (airport_transfer (backendOf h)) ->
          id r' = transferId -> status r' = completed)
      /\ (forall t', In t' (transfers (stateOf h)) ->
          id t' = transferId -> status t' = completed)
      /\ (forall s2,
            let h2 := handleComplete (backendOf h) transferId s2 in
            airport_transfer (backendOf h2) = airport_transfer (backendOf h)
            /\ (update_denied (backendOf h) (airport_transfer (backendOf h))
                  transferId completePatch = false ->
                toasts (stateOf h2) = completedToast :: toasts s2
                /\ error (stateOf h2) = error s2
                /\ refreshOf h2 = true))).
Proof.
  intro h. subst h. rewrite handleComplete_cases. split.
  { destruct (update_denied b (airport_transfer b) transferId completePatch);
      reflexivity. }
  intro Hok. rewrite Hok. unfold backendOf, stateOf, refreshOf.
  change (fst (fst (?x, ?y, ?z))) with x.
  change (snd (fst (?x, ?y, ?z))) with y.
  change (snd (?x, ?y, ?z)) with z.
  destruct (update_done b transferId completePatch Hok) as [_ Hrows].
  set (b1 := fst (update b transferId completePatch)) in *.
  split; [reflexivity|]. split; [|split; [|split]].
  - intros r Hin Hid. exists (applyPatch completePatch r). rewrite Hrows.
    split; [now apply patched_rows_present|]. now split.
  - intros r' Hin Hid. rewrite Hrows in Hin.
    now destruct (patched_rows transferId completePatch _ r' Hin Hid).
  - intros t' Hin Hid. simpl transfers in Hin. unfold reconcile in Hin.
    now destruct (patched_rows transferId completePatch _ t' Hin Hid).
  - intros s2. cbv zeta. rewrite handleComplete_cases.
    split.
    + destruct (update_denied b1 (airport_transfer b1) transferId completePatch)
        eqn:Hden.
      * now destruct (update_refused b1 transferId completePatch Hden).
      * destruct (update_done b1 transferId completePatch Hden) as [_ Hrows2].
        change (fst (fst (?x, ?y, ?z))) with x.
        rewrite Hrows2, Hrows.
        rewrite map_map. apply map_ext. intro t. apply updateRow_idempotent.
    + intro Hok2. rewrite Hok2. repeat split.
Qed.

Lemma complete_unconditional_idempotent_witness :
  updates (backendOf (handleComplete (Examples.backend "driver@example.com") 8
                        Examples.listed))
  = [ (8, completePatch) ]
  /\ exists r',
       In r' (airport_transfer
                (backendOf (handleComplete
                              (Examples.backend "driver@example.com") 8
                              Examples.listed)))
       /\ id r' = 8 /\ status r' = completed /\ driver_id r' = Some "drv-1".
Proof.
  destruct (complete_unconditional_idempotent
              (Examples.backend "driver@example.com") 8 Examples.listed)
    as [Hsent Hdone].
  split; [exact Hsent|].
  destruct (Hdone eq_refl) as (_ & Hrow & _).
  apply (Hrow (Examples.transfer 8 confirmed (Some "drv-1")));
    [simpl; tauto | reflexivity].
Defined.

(** ** The unread counter *)

Lemma fetchOverdueMessages_unread (br : Browser) (b : Backend) (u : string)
  (s : State) :
  0 <= unreadCount s -> 0 <= unreadCount (fetchOverdueMessages br b u s).
Proof.
  intro H. unfold fetchOverdueMessages.
  destruct (unpaidBookingsOf b u); [simpl; lia | exact H].
Qed.

Lemma fetchAirportTransfers_unread (historyMode : bool) (br : Browser)
  (b : Backend) (s : State) :
  0 <= unreadCount s ->
  0 <= unreadCount (fetchAirportTransfers historyMode br b s).
Proof.
  intro H. unfold fetchAirportTransfers.
  destruct (session b) as [user|]; [|exact H].
  destruct (driverByEmailIlike b (user_email user)) as [[d|]|];
    [|exact H|exact H].
  change (0 <= unreadCount (fetchOverdueMessages br b d
      match transfersOf b d (statusGroup historyMode) with
      | Data data =>
          match data with
          | [] => setError
                    (Some (if historyMode
                           then "No airport transfer history found."
                           else "No pending transfers assigned to you."))
                    (setTransfers data
                       (setDriverId (Some d) (setError None (setLoading true s))))
          | _ :: _ => setTransfers data
                        (setDriverId (Some d) (setError None (setLoading true s)))
          end
      | Error => setError (Some "Failed to get airport transfers")
                   (setDriverId (Some d) (setError None (setLoading true s)))
      end)).
  apply fetchOverdueMessages_unread.
  destruct (transfersOf b d (statusGroup historyMode)) as [[|t data]|]; exact H.
Qed.

Lemma markMessageAsRead_unread (m : string) (s : State) :
  0 <= unreadCount (markMessageAsRead m s).
Proof. unfold markMessageAsRead. simpl. lia. Qed.

Lemma thenRefresh_unread (historyMode : bool) (br : Browser) (h : Handled) :
  0 <= unreadCount (stateOf h) ->
  0 <= unreadCount (snd (thenRefresh historyMode br h)).
Proof.
  destruct h as [[b s] again]. unfold stateOf. simpl. intro H.
  destruct again; [now apply fetchAirportTransfers_unread | exact H].
Qed.

Lemma handlers_keep_unread (b : Backend) (i : Z) (s : State) :
  unreadCount (stateOf (handleAccept b i s)) = unreadCount s
  /\ unreadCount (stateOf (handleDecline b i s)) = unreadCount s
  /\ unreadCount (stateOf (handleComplete b i s)) = unreadCount s.
Proof.
  unfold handleAccept, handleDecline, handleComplete, update.
  repeat split.
  - destruct (session b) as [user|]; [|reflexivity].
    destruct (driverByEmailEq b (user_email user)) as [d|]; [|reflexivity].
    destruct (update_denied b _ _ _); reflexivity.
  - destruct (update_denied b _ _ _); reflexivity.
  - destruct (update_denied b _ _ _); reflexivity.
Qed.

Lemma step_unread (e : Event) (b : Backend) (s : State) :
  0 <= unreadCount s -> 0 <= unreadCount (snd (step e (b, s))).
Proof.
  intro H.
  destruct e as [h br|m|b'|h br t|h br t|h br t]; simpl step.
  - now apply fetchAirportTransfers_unread.
  - apply markMessageAsRead_unread.
  - exact H.
  - apply thenRefresh_unread.
    destruct (handlers_keep_unread b t s) as (-> & _ & _). exact H.
  - apply thenRefresh_unread.
    destruct (handlers_keep_unread b t s) as (_ & -> & _). exact H.
  - apply thenRefresh_unread.
    destruct (handlers_keep_unread b t s) as (_ & _ & ->). exact H.
Qed.

Lemma run_unread (es : list Event) (w : Backend * State) :
  0 <= unreadCount (snd w) -> 0 <= unreadCount (snd (run es w)).
Proof.
  revert w. induction es as [|e es IH]; intros [b s] H; [exact H|].
  change (0 <= unreadCount (snd (run es (step e (b, s))))).
  apply IH. now apply step_unread.
Qed.

Lemma markMessageAsRead_read_already (m : string) (s : State) :
  (forall msg, In msg (overdueMessages s) -> msg_id msg = m ->
               is_read msg = true) ->
  overdueMessages (markMessageAsRead m s) = overdueMessages s.
Proof.
  intro H. unfold markMessageAsRead. simpl.
  rewrite <- (map_id (overdueMessages s)) at 2.
  apply map_ext_in. intros msg Hin.
  destruct (msg_id msg =? m)%string eqn:E; [|reflexivity].
  apply String.eqb_eq in E. specialize (H msg Hin E).
  destruct msg; simpl in *. now subst.
Qed.

(** C9: the unread counter is never negative.  It is zero when the
    component mounts, and no event (a refresh, marking a message as read,
    accepting, declining or completing a transfer, a change of the backend
    by someone else) makes a non-negative counter negative; so it is
    non-negative after every run of events, in particular after any
    sequence of [markMessageAsRead] calls, repeated on one identifier or
    on identifiers that are not in the list.  Marking a message that is
    already read, or an identifier that is not in the list, leaves the
    message list as it is. *)
Theorem unread_count_never_negative :
  (forall es b, 0 <= unreadCount (snd (run es (b, initialState))))
  /\ (forall es b s, 0 <= unreadCount s ->
        0 <= unreadCount (snd (run es (b, s))))
  /\ (forall ids s,
        0 <= unreadCount s ->
        0 <= unreadCount (fold_left (fun s m => markMessageAsRead m s) ids s))
  /\ (forall m s,
        (forall msg, In msg (overdueMessages s) -> msg_id msg = m ->
                     is_read msg = true) ->
        overdueMessages (markMessageAsRead m s) = overdueMessages s)
  /\ (forall m s,
        (forall msg, In msg (overdueMessages s) -> msg_id msg <> m) ->
        overdueMessages (markMessageAsRead m s) = overdueMessages s).
Proof.
  split; [intros es b; apply run_unread; simpl; lia|].
  split; [intros es b s H; now apply run_unread|].
  split.
  { intro ids. induction ids as [|m ids IH]; intros s H; [exact H|].
    simpl. apply IH, markMessageAsRead_unread. }
  split; [exact markMessageAsRead_read_already|].
  intros m s H. apply markMessageAsRead_read_already.
  intros msg Hin Hid. now destruct (H msg Hin).
Qed.

Lemma unread_count_never_negative_witness :
  0 <= unreadCount
         (snd (run [ Refresh false Examples.browser; MarkRead "overdue-b1";
                     MarkRead "overdue-b1"; MarkRead "nowhere" ]
                 (Examples.backend "driver@example.com", initialState))).
Proof.
  destruct unread_count_never_negative as (_ & Hrun & _).
  apply Hrun. simpl. lia.
Defined.

End WorkflowFacts.

(** * Further properties of the notifications panel *)

Module PanelFacts.

Import Supabase DriverNotifications NotificationsView.
Import WorkflowFacts.

(** ** Two general facts behind the examples of the workflow *)

Lemma case_variant_resolution_witness :
  driverByEmailIlike (Examples.backend "driver@example.com")
    "driver@example.com" = Data (Some "drv-1")
  /\ driverByEmailEq (Examples.backend "driver@example.com")
       "driver@example.com" = Error.
Proof.
  apply (case_variant_resolution (Examples.backend "driver@example.com")
           {| drv_id := "drv-1"; drv_email := "Driver@Example.com" |}
           "driver@example.com");
    [reflexivity | reflexivity | reflexivity | reflexivity | discriminate].
Defined.

Lemma overdue_days_round_up_witness :
  map days_overdue
    (overdueMessagesOf MoreExamples.browserLater Examples.lateBooking)
  = [ Some 6 ].
Proof.
  rewrite (overdue_days_round_up MoreExamples.browserLater Examples.lateBooking
             "2025-01-10" Examples.jan10 5);
    [reflexivity | reflexivity | reflexivity | lia | ].
  unfold msPerDay. simpl. lia.
Defined.

(** ** Declining, and refused updates *)

Lemma handleDecline_cases (b : Backend) (i : Z) (s : State) :
  handleDecline b i s
  = if update_denied b (airport_transfer b) i declinePatch
    then (fst (update b i declinePatch),
          toast (destructive "Failed to cancel the transfer.") s, false)
    else (fst (update b i declinePatch),
          toast {| title := "Transfer Declined";
                   description := "You have declined the airport transfer.";
                   variant := None |}
            (setTransfers (reconcile i declinePatch (transfers s)) s),
          true).
Proof.
  unfold handleDecline. fold declinePatch. unfold update.
  destruct (update_denied b (airport_transfer b) i declinePatch); reflexivity.
Qed.

Lemma patched_rows_keep_driver (i : Z) (p : Patch) (t : AirportTransfer) :
  patch_driver_id p = None -> driver_id (applyPatch p t) = driver_id t.
Proof. intro H. simpl. now rewrite H. Qed.



(** When the backend refuses the update, decline and complete show their
    destructive toast and change nothing else: the component state is
    otherwise the one before the click, the persisted rows are the ones
    before the click and no refresh is requested. *)
Theorem refused_decline_or_complete_changes_nothing (b : Backend)
  (transferId : Z) (s : State) :
  (update_denied b (airport_transfer b) transferId declinePatch = true ->
   stateOf (handleDecline b transferId s)
   = toast (destructive "Failed to cancel the transfer.") s
   /\ airport_transfer (backendOf (handleDecline b transferId s))
      = airport_transfer b
   /\ refreshOf (handleDecline b transferId s) = false)
  /\ (update_denied b (airport_transfer b) transferId completePatch = true ->
      stateOf (handleComplete b transferId s)
      = toast (destructive "Failed to mark the transfer as completed.") s
      /\ airport_transfer (backendOf (handleComplete b transferId s))
         = airport_transfer b
      /\ refreshOf (handleComplete b transferId s) = false).
Proof.
  split; intro Hden.
  - rewrite handleDecline_cases, Hden.
    destruct (update_refused b transferId declinePatch Hden) as [_ Hrows].
    repeat split. exact Hrows.
  - rewrite handleComplete_cases, Hden.
    destruct (update_refused b transferId completePatch Hden) as [_ Hrows].
    repeat split. exact Hrows.
Qed.

Lemma refused_decline_or_complete_changes_nothing_witness :
  stateOf (handleDecline MoreExamples.readOnly 7 Examples.listed)
  = toast (destructive "Failed to cancel the transfer.") Examples.listed
  /\ airport_transfer (backendOf (handleComplete MoreExamples.readOnly 8
                                    Examples.listed))
     = airport_transfer MoreExamples.readOnly.
Proof.
  split.
  - destruct (refused_decline_or_complete_changes_nothing MoreExamples.readOnly
                7 Examples.listed) as [Hdecline _].
    now destruct (Hdecline eq_refl).
  - destruct (refused_decline_or_complete_changes_nothing MoreExamples.readOnly
                8 Examples.listed) as [_ Hcomplete].
    now destruct (Hcomplete eq_refl) as (_ & Hrows & _).
Defined.

(** ** What no handler touches *)







(** ** Fetching: failures, repetition, contents *)

(** A fetch that cannot resolve the driver (nobody signed in, the driver
    lookup errs out, for instance because several drivers match the email,
    or no driver matches) sets the error text of its case and clears
    [loading]; the transfer list, the reminders, the unread counter and
    the driver identifier stay what they were. *)
Theorem fetch_without_driver_keeps_view (historyMode : bool) (br : Browser)
  (b : Backend) (s : State) :
  let s' := fetchAirportTransfers historyMode br b s in
  (session b = None -> error s' = Some "Driver not authenticated")
  /\ (forall user, session b = Some user ->
        driverByEmailIlike b (user_email user) = Error ->
        error s' = Some "Driver lookup failed")
  /\ (forall user, session b = Some user ->
        driverByEmailIlike b (user_email user) = Data None ->
        error s' = Some "Driver ID not found for current user")
  /\ ((session b = None
       \/ exists user, session b = Some user
                       /\ (driverByEmailIlike b (user_email user) = Error
                           \/ driverByEmailIlike b (user_email user)
                              = Data None)) ->
      transfers s' = transfers s
      /\ overdueMessages s' = overdueMessages s
      /\ unreadCount s' = unreadCount s
      /\ driverId s' = driverId s
      /\ toasts s' = toasts s
      /\ loading s' = false).
Proof.
  intro s'. subst s'. unfold fetchAirportTransfers.
  split; [intros ->; reflexivity|].
  split; [intros user -> ->; reflexivity|].
  split; [intros user -> ->; reflexivity|].
  intros [-> | (user & -> & [-> | ->])]; repeat split.
Qed.

Lemma fetch_without_driver_keeps_view_witness :
  error (fetchAirportTransfers false Examples.browser Examples.signedOut
           Examples.listed)
  = Some "Driver not authenticated"
  /\ transfers (fetchAirportTransfers false Examples.browser Examples.signedOut
                  Examples.listed)
     = transfers Examples.listed.
Proof.
  destruct (fetch_without_driver_keeps_view false Examples.browser
              Examples.signedOut Examples.listed) as (Hnone & _ & _ & Hkeep).
  split; [exact (Hnone eq_refl)|].
  now destruct (Hkeep (or_introl eq_refl)).
Defined.

(** When the driver is resolved and reading the transfers fails, the list
    on screen is the one from before (it is not emptied), the error text
    says so, and the reminders and the unread counter are fetched all the
    same. *)
Theorem fetch_keeps_list_when_transfers_unreadable (historyMode : bool)
  (br : Browser) (b : Backend) (s : State) (user : User) (d : string) :
  session b = Some user ->
  driverByEmailIlike b (user_email user) = Data (Some d) ->
  transfersOf b d (statusGroup historyMode) = Error ->
  let s' := fetchAirportTransfers historyMode br b s in
  transfers s' = transfers s
  /\ error s' = Some "Failed to get airport transfers"
  /\ driverId s' = Some d
  /\ loading s' = false
  /\ (forall bookingsData, unpaidBookingsOf b d = Data bookingsData ->
        overdueMessages s' = deriveMessages br bookingsData
        /\ unreadCount s' = unread (deriveMessages br bookingsData)).
Proof.
  intros Hs Hd Ht s'. subst s'. unfold fetchAirportTransfers.
  rewrite Hs, Hd, Ht. unfold fetchOverdueMessages.
  destruct (unpaidBookingsOf b d) as [ks|]; simpl.
  - repeat split; injection H as <-; reflexivity.
  - repeat split; discriminate.
Qed.

Lemma fetch_keeps_list_when_transfers_unreadable_witness :
  transfers (fetchAirportTransfers false Examples.browser
               MoreExamples.transfersDown Examples.listed)
  = transfers Examples.listed
  /\ error (fetchAirportTransfers false Examples.browser
              MoreExamples.transfersDown Examples.listed)
     = Some "Failed to get airport transfers".
Proof.
  destruct (fetch_keeps_list_when_transfers_unreadable false Examples.browser
              MoreExamples.transfersDown Examples.listed
              {| user_email := "driver@example.com" |} "drv-1"
              eq_refl eq_refl eq_refl) as (Hlist & Herr & _).
  split; assumption.
Defined.

(** Refreshing twice against the same backend, at the same time, gives the
    state one refresh gives. *)
Theorem refresh_is_idempotent (historyMode : bool) (br : Browser) (b : Backend)
  (s : State) :
  fetchAirportTransfers historyMode br b
    (fetchAirportTransfers historyMode br b s)
  = fetchAirportTransfers historyMode br b s.
Proof.
  unfold fetchAirportTransfers.
  destruct (session b) as [user|]; [|reflexivity].
  destruct (driverByEmailIlike b (user_email user)) as [[d|]|];
    [|reflexivity|reflexivity].
  unfold fetchOverdueMessages.
  destruct (transfersOf b d (statusGroup historyMode)) as [[|t data]|];
    destruct (unpaidBookingsOf b d) as [ks|]; reflexivity.
Qed.

(** The list a successful fetch leaves, row by row. *)
Lemma fetch_lists_drivers_rows (historyMode : bool) (br : Browser)
  (b : Backend) (s : State) (user : User) (d : string) :
  session b = Some user ->
  driverByEmailIlike b (user_email user) = Data (Some d) ->
  select_fails b airport_transfer_table = false ->
  let s' := fetchAirportTransfers historyMode br b s in
  (forall t, In t (transfers s')
             <-> In t (airport_transfer b)
                 /\ driver_id t = Some d
                 /\ In (status t) (statusGroup historyMode))
  /\ (forall t, In t (transfers s') -> driver_id t <> None).
Proof.
  intros Hs Hd Hsel s'.
  assert (Hq : transfersOf b d (statusGroup historyMode)
               = Data (filter (fun t => hasDriver d t
                                        && statusIn (statusGroup historyMode) t)
                         (airport_transfer b))).
  { unfold transfersOf. now rewrite Hsel. }
  destruct (fetchAirportTransfers_listed historyMode br b s user d _ Hs Hd Hq)
    as (Hlist & _).
  fold s' in Hlist. rewrite Hlist.
  assert (Hiff : forall t,
            In t (filter (fun t => hasDriver d t
                                   && statusIn (statusGroup historyMode) t)
                    (airport_transfer b))
            <-> In t (airport_transfer b)
                /\ driver_id t = Some d
                /\ In (status t) (statusGroup historyMode)).
  { intro t. rewrite filter_In, andb_true_iff.
    assert (Hdrv : hasDriver d t = true <-> driver_id t = Some d).
    { split; [apply hasDriver_eq|].
      intro H. unfold hasDriver. rewrite H. apply String.eqb_refl. }
    assert (Hst : statusIn (statusGroup historyMode) t = true
                  <-> In (status t) (statusGroup historyMode)).
    { unfold statusIn. rewrite existsb_exists. split.
      - intros (x & Hin & Heq). destruct (status t), x; try discriminate;
          exact Hin.
      - intro Hin. exists (status t). split; [exact Hin|].
        destruct (status t); reflexivity. }
    rewrite Hdrv, Hst. tauto. }
  split; [exact Hiff|].
  intros t Hin. apply Hiff in Hin as (_ & Hdr & _). congruence.
Qed.

(** After a fetch whose queries succeed, the list on screen holds exactly
    the persisted rows that are assigned to the resolved driver and whose
    status is in the group of the mode.  A transfer with no driver yet is
    never listed, whatever its status. *)
Theorem listed_transfers_are_the_drivers (historyMode : bool) (br : Browser)
  (b : Backend) (s : State) (user : User) (d : string) :
  session b = Some user ->
  driverByEmailIlike b (user_email user) = Data (Some d) ->
  select_fails b airport_transfer_table = false ->
  let s' := fetchAirportTransfers historyMode br b s in
  (forall t, In t (transfers s')
             <-> In t (airport_transfer b)
                 /\ driver_id t = Some d
                 /\ In (status t) (statusGroup historyMode))
  /\ (forall t, In t (transfers s') -> driver_id t <> None).
Proof.
  intros Hs Hd Hsel.
  exact (fetch_lists_drivers_rows historyMode br b s user d Hs Hd Hsel).
Qed.

Lemma listed_transfers_are_the_drivers_witness :
  forallb (fun t => match driver_id t with Some _ => true | None => false end)
    (transfers MoreExamples.fetched) = true
  /\ In (Examples.transfer 7 pending (Some "drv-1"))
       (transfers MoreExamples.fetched).
Proof.
  destruct (listed_transfers_are_the_drivers false Examples.browser
              (Examples.backend "driver@example.com") initialState
              {| user_email := "driver@example.com" |} "drv-1"
              eq_refl eq_refl eq_refl) as [Hiff _].
  split; [reflexivity|].
  apply Hiff. simpl. tauto.
Defined.

(** ** Reminders *)

Lemma overdueMessagesOf_shape (br : Browser) (k : Booking) (m : OverdueMessage) :
  In m (overdueMessagesOf br k) ->
  exists e n, end_date k = Some e /\ 0 < n /\ m = reminder br k e n.
Proof.
  unfold overdueMessagesOf.
  destruct (end_date k) as [e|]; [|contradiction].
  destruct (e =? "")%string; [contradiction|].
  destruct (getTime br e) as [t|]; [|contradiction].
  destruct (Z.ltb_spec 0 (Js.ceil_div (today br - t) msPerDay)) as [Hpos|];
    [|contradiction].
  intros [<- | []]. now exists e, (Js.ceil_div (today br - t) msPerDay).
Qed.

Lemma overdueMessagesOf_length (br : Browser) (k : Booking) :
  (List.length (overdueMessagesOf br k) <= 1)%nat.
Proof.
  unfold overdueMessagesOf.
  destruct (end_date k) as [e|]; [|simpl; lia].
  destruct (e =? "")%string; [simpl; lia|].
  destruct (getTime br e) as [t|]; [|simpl; lia].
  destruct (0 <? Js.ceil_div (today br - t) msPerDay); simpl; lia.
Qed.

Lemma deriveMessages_length (br : Browser) (ks : list Booking) :
  (List.length (deriveMessages br ks) <= List.length ks)%nat.
Proof.
  induction ks as [|k ks IH]; simpl; [lia|].
  unfold deriveMessages in *. simpl. rewrite length_app.
  pose proof (overdueMessagesOf_length br k). lia.
Qed.

Lemma deriveMessages_all_unread (br : Browser) (ks : list Booking) :
  filter (fun m => negb (is_read m)) (deriveMessages br ks)
  = deriveMessages br ks.
Proof.
  apply AdapterFacts.filter_keeps_all. apply forallb_forall. intros m Hin.
  unfold deriveMessages in Hin. apply in_flat_map in Hin as (k & _ & Hm).
  apply overdueMessagesOf_shape in Hm as (e & n & _ & _ & ->). reflexivity.
Qed.


(** After a fetch of the reminders that the backend answers, every
    reminder on screen is unread, of type overdue, counts at least one day
    and carries a positive amount, the one of a booking of this driver;
    the unread counter is the number of reminders, which is at most the
    number of bookings on file.  Marks made before the fetch are gone. *)
Theorem fetched_reminders_are_fresh (br : Browser) (b : Backend)
  (userId : string) (s : State) :
  select_fails b bookings_table = false ->
  let s' := fetchOverdueMessages br b userId s in
  Forall (fun m =>
            is_read m = false /\ msg_type m = overdue
            /\ exists k n,
                 In k (bookings b) /\ user_id k = userId
                 /\ msg_id m = "overdue-" ++ bk_id k
                 /\ days_overdue m = Some n /\ 1 <= n
                 /\ amount m = Some (remaining_payments k)
                 /\ 0 < remaining_payments k)
    (overdueMessages s')
  /\ unreadCount s' = Z.of_nat (List.length (overdueMessages s'))
  /\ unreadCount s' = unread (overdueMessages s')
  /\ (List.length (overdueMessages s') <= List.length (bookings b))%nat.
Proof.
  intros Hsel s'. subst s'. unfold fetchOverdueMessages, unpaidBookingsOf.
  rewrite Hsel. simpl. unfold unread. rewrite deriveMessages_all_unread.
  split; [|split; [reflexivity|split; [reflexivity|]]].
  - apply Forall_forall. intros m Hin. unfold deriveMessages in Hin.
    apply in_flat_map in Hin as (k & Hk & Hm).
    apply filter_In in Hk as [Hk Hf]. apply andb_true_iff in Hf as [Hu Hp].
    apply String.eqb_eq in Hu. apply Z.ltb_lt in Hp.
    apply overdueMessagesOf_shape in Hm as (e & n & _ & Hn & ->).
    split; [reflexivity|]. split; [reflexivity|].
    exists k, n. simpl. repeat split; try assumption; lia.
  - etransitivity; [apply deriveMessages_length|]. apply filter_length_le.
Qed.

Lemma fetched_reminders_are_fresh_witness :
  unreadCount (fetchOverdueMessages Examples.browser
                 (Examples.backend "driver@example.com") "drv-1"
                 (markMessageAsRead "overdue-b1" MoreExamples.fetched))
  = unread (overdueMessages
              (fetchOverdueMessages Examples.browser
                 (Examples.backend "driver@example.com") "drv-1"
                 (markMessageAsRead "overdue-b1" MoreExamples.fetched))).
Proof.
  destruct (fetched_reminders_are_fresh Examples.browser
              (Examples.backend "driver@example.com") "drv-1"
              (markMessageAsRead "overdue-b1" MoreExamples.fetched) eq_refl)
    as (_ & _ & Hunread & _).
  exact Hunread.
Defined.

(** ** The badge against the reminders on screen *)

Lemma markMessageAsRead_list (i : string) (s : State) :
  overdueMessages (markMessageAsRead i s)
  = map (readIf i) (overdueMessages s).
Proof. reflexivity. Qed.

Lemma unread_cons (m : OverdueMessage) (l : list OverdueMessage) :
  unread (m :: l) = (if is_read m then 0 else 1) + unread l.
Proof.
  unfold unread. cbn [filter]. destruct (is_read m); cbn [negb List.length];
    lia.
Qed.

Lemma unread_nonneg (l : list OverdueMessage) : 0 <= unread l.
Proof. unfold unread. lia. Qed.



Lemma readIf_other (i : string) (l : list OverdueMessage) :
  ~ In i (map msg_id l) -> map (readIf i) l = l.
Proof.
  intro H. rewrite <- (map_id l) at 2. apply map_ext_in. intros m Hin.
  unfold readIf. destruct (msg_id m =? i)%string eqn:E; [|reflexivity].
  apply String.eqb_eq in E. destruct H. rewrite <- E. now apply in_map.
Qed.

(** Marking the identifier of an unread reminder, among reminders with
    distinct identifiers, lowers the number of unread reminders by one. *)
Lemma unread_after_marking_unread (i : string) (l : list OverdueMessage)
  (m : OverdueMessage) :
  NoDup (map msg_id l) -> In m l -> msg_id m = i -> is_read m = false ->
  unread (map (readIf i) l) = unread l - 1.
Proof.
  induction l as [|a l IH]; intros Hnd Hin Hid Hunread; [contradiction|].
  simpl in Hnd. apply NoDup_cons_iff in Hnd as [Hfresh Hnd].
  simpl map. rewrite !unread_cons. destruct Hin as [-> | Hin].
  - rewrite Hunread. rewrite <- Hid in *.
    rewrite (readIf_other (msg_id m) l Hfresh).
    unfold readIf. rewrite String.eqb_refl. cbn [is_read]. lia.
  - assert (Hne : msg_id a <> i).
    { intro E. apply Hfresh. rewrite E, <- Hid. now apply in_map. }
    unfold readIf at 1. apply String.eqb_neq in Hne. rewrite Hne.
    rewrite (IH Hnd Hin Hid Hunread). lia.
Qed.






(** Clicking a reminder moves the counter by one whether or not the
    reminder was unread.  With an exact counter and distinct identifiers:
    marking an unread reminder keeps the counter exact; marking a reminder
    that is already read (or an identifier that is not on screen) leaves
    the reminders as they are and the counter, when it was positive, one
    below the number of unread reminders. *)
Theorem marking_moves_badge_by_one (i : string) (s : State) :
  NoDup (map msg_id (overdueMessages s)) ->
  unreadCount s = unread (overdueMessages s) ->
  let s' := markMessageAsRead i s in
  ((exists m, In m (overdueMessages s) /\ msg_id m = i /\ is_read m = false) ->
   unread (overdueMessages s') = unread (overdueMessages s) - 1
   /\ unreadCount s' = unread (overdueMessages s'))
  /\ ((forall m, In m (overdueMessages s) -> msg_id m = i ->
                 is_read m = true) ->
      overdueMessages s' = overdueMessages s
      /\ (0 < unreadCount s ->
          unreadCount s' = unread (overdueMessages s') - 1)).
Proof.
  intros Hnd Hexact s'. subst s'.
  change (unreadCount (markMessageAsRead i s))
    with (Z.max 0 (unreadCount s - 1)).
  split.
  - intros (m & Hin & Hid & Hun). rewrite markMessageAsRead_list.
    rewrite (unread_after_marking_unread i _ m Hnd Hin Hid Hun).
    split; [reflexivity|].
    pose proof (unread_nonneg (map (readIf i) (overdueMessages s))) as Hnn.
    rewrite (unread_after_marking_unread i _ m Hnd Hin Hid Hun) in Hnn. lia.
  - intro Hall. rewrite (markMessageAsRead_read_already i s Hall).
    split; [reflexivity|]. lia.
Qed.

Lemma marking_moves_badge_by_one_witness :
  unreadCount (markMessageAsRead "overdue-b1" MoreExamples.fetched)
  = unread (overdueMessages
              (markMessageAsRead "overdue-b1" MoreExamples.fetched)).
Proof.
  destruct (marking_moves_badge_by_one "overdue-b1" MoreExamples.fetched)
    as [Hunread _].
  - simpl. repeat constructor. simpl. tauto.
  - reflexivity.
  - apply Hunread. eexists. split; [left; reflexivity|]. split; reflexivity.
Defined.

(** ** Buttons and the life cycle *)

(** A click that asks for the refresh went through: the list was
    reconciled with a patch carrying the status of the button, and the
    backend holds the patched rows. *)
Lemma click_went_through (btn : Button) (b : Backend) (t : AirportTransfer)
  (s : State) :
  refreshOf (click btn b t s) = true ->
  exists p,
    patch_status p = requested btn
    /\ transfers (stateOf (click btn b t s)) = reconcile (id t) p (transfers s)
    /\ airport_transfer (backendOf (click btn b t s))
       = map (updateRow (id t) p) (airport_transfer b)
    /\ (btn <> AcceptButton -> patch_driver_id p = None).
Proof.
  destruct btn; simpl click.
  - unfold handleAccept. destruct (session b) as [user|]; [|discriminate].
    destruct (driverByEmailEq b (user_email user)) as [d|]; [|discriminate].
    unfold update.
    destruct (update_denied b (airport_transfer b) (id t) _); [discriminate|].
    intros _. exists (acceptPatch d).
    split; [reflexivity|]. split; [reflexivity|]. split; [reflexivity|].
    intro H. now destruct H.
  - unfold handleDecline, update.
    destruct (update_denied b (airport_transfer b) (id t) _); [discriminate|].
    intros _. exists declinePatch. repeat split.
  - unfold handleComplete, update.
    destruct (update_denied b (airport_transfer b) (id t) _); [discriminate|].
    intros _. exists completePatch. repeat split.
Qed.

(** The buttons follow the life cycle.  A row shows buttons only outside
    the history view and only while the transfer is pending (accept,
    decline) or confirmed (complete); a completed or canceled transfer has
    none.  When a click on a rendered button goes through, the entry of
    the clicked row moves along an edge of
    pending -> confirmed -> completed, pending -> canceled,
    keeping its other columns. *)
Theorem buttons_follow_lifecycle (isHistoryView : bool) (t : AirportTransfer) :
  (isHistoryView = true -> buttons isHistoryView t = [])
  /\ (status t = completed \/ status t = canceled ->
      buttons isHistoryView t = [])
  /\ (forall btn b s,
        In btn (buttons isHistoryView t) ->
        In t (transfers s) ->
        refreshOf (click btn b t s) = true ->
        exists t',
          In t' (transfers (stateOf (click btn b t s)))
          /\ fixedColumns t' = fixedColumns t
          /\ status t' = requested btn
          /\ lifecycle (status t) (status t') = true).
Proof.
  split; [intros ->; reflexivity|].
  split.
  { intros [H | H]; unfold buttons; rewrite H; simpl;
      now rewrite !andb_false_r. }
  intros btn b s Hbtn Hin Hok.
  destruct (click_went_through btn b t s Hok) as (p & Hp & Hlist & _).
  exists (applyPatch p t). rewrite Hlist. unfold reconcile.
  split; [now apply patched_rows_present|]. split; [reflexivity|].
  split; [exact Hp|]. simpl status. rewrite Hp.
  unfold buttons in Hbtn. destruct isHistoryView; [contradiction|].
  destruct (status t); simpl in Hbtn;
    repeat (destruct Hbtn as [<- | Hbtn]; [reflexivity|]); contradiction.
Qed.

Lemma buttons_follow_lifecycle_witness :
  exists t',
    In t' (transfers
             (stateOf (click CompleteButton
                         (Examples.backend "driver@example.com")
                         (Examples.transfer 8 confirmed (Some "drv-1"))
                         Examples.listed)))
    /\ fixedColumns t'
       = fixedColumns (Examples.transfer 8 confirmed (Some "drv-1"))
    /\ status t' = completed
    /\ lifecycle confirmed (status t') = true.
Proof.
  destruct (buttons_follow_lifecycle false
              (Examples.transfer 8 confirmed (Some "drv-1"))) as (_ & _ & H).
  apply (H CompleteButton (Examples.backend "driver@example.com")
           Examples.listed); [left; reflexivity | | reflexivity].
  simpl. tauto.
Defined.

(** ** A click followed by its refresh *)

(** A handler leaves the session, the drivers, the bookings and the
    faults of the backend as they were. *)
Lemma click_keeps_backend (btn : Button) (b : Backend) (t : AirportTransfer)
  (s : State) :
  session (backendOf (click btn b t s)) = session b
  /\ drivers (backendOf (click btn b t s)) = drivers b
  /\ bookings (backendOf (click btn b t s)) = bookings b
  /\ select_fails (backendOf (click btn b t s)) = select_fails b.
Proof.
  destruct btn; simpl click.
  - unfold handleAccept. destruct (session b) as [user|] eqn:Hs;
      [|now rewrite <- Hs].
    destruct (driverByEmailEq b (user_email user)) as [d|];
      [|now rewrite <- Hs].
    unfold update. rewrite <- Hs.
    destruct (update_denied b (airport_transfer b) (id t) _); repeat split.
  - unfold handleDecline, update.
    destruct (update_denied b (airport_transfer b) (id t) _); repeat split.
  - unfold handleComplete, update.
    destruct (update_denied b (airport_transfer b) (id t) _); repeat split.
Qed.

Lemma driverByEmailIlike_after_click (btn : Button) (b : Backend)
  (t : AirportTransfer) (s : State) (email : string) :
  driverByEmailIlike (backendOf (click btn b t s)) email
  = driverByEmailIlike b email.
Proof.
  destruct (click_keeps_backend btn b t s) as (_ & Hd & _ & Hf).
  unfold driverByEmailIlike. now rewrite Hd, Hf.
Qed.

(** After a decline or a complete that went through, a refresh of the
    active list that resolves the driver and reads the table no longer
    shows the transfer: no entry of the list has its identifier. *)
Theorem finished_transfer_leaves_active_list (btn : Button) (br : Browser)
  (b : Backend) (t : AirportTransfer) (s : State) (user : User) (d : string) :
  btn <> AcceptButton ->
  refreshOf (click btn b t s) = true ->
  session b = Some user ->
  driverByEmailIlike b (user_email user) = Data (Some d) ->
  select_fails b airport_transfer_table = false ->
  forall t',
    In t' (transfers (snd (thenRefresh false br (click btn b t s)))) ->
    id t' <> id t.
Proof.
  intros Hbtn Hok Hs Hd Hsel t' Hin Hid.
  destruct (click_went_through btn b t s Hok) as (p & Hp & _ & Hrows & _).
  destruct (click_keeps_backend btn b t s) as (Hs' & _ & _ & Hf').
  remember (click btn b t s) as h eqn:Hh.
  destruct h as [[b' s1] again]. unfold refreshOf in Hok. simpl in Hok.
  subst again. unfold backendOf in *. simpl in Hs', Hf', Hrows. simpl in Hin.
  assert (Hd' : driverByEmailIlike b' (user_email user) = Data (Some d)).
  { pose proof (driverByEmailIlike_after_click btn b t s (user_email user)) as E.
    rewrite <- Hh in E. unfold backendOf in E. simpl in E. now rewrite E. }
  rewrite <- Hs' in Hs. rewrite <- Hf' in Hsel.
  destruct (fetch_lists_drivers_rows false br b' s1 user d Hs Hd' Hsel)
    as [Hiff _].
  apply Hiff in Hin as (Hrow & _ & Hgroup).
  rewrite Hrows in Hrow.
  destruct (patched_rows (id t) p _ t' Hrow Hid) as [Hst _].
  rewrite Hp in Hst. rewrite Hst in Hgroup.
  destruct btn; [now destruct Hbtn | |]; simpl in Hgroup;
    intuition discriminate.
Qed.

Lemma finished_transfer_leaves_active_list_witness :
  forallb (fun t' => negb (id t' =? 8))
    (transfers
       (snd (thenRefresh false Examples.browser
               (click CompleteButton (Examples.backend "driver@example.com")
                  (Examples.transfer 8 confirmed (Some "drv-1"))
                  Examples.listed))))
  = true.
Proof.
  apply forallb_forall. intros t' Hin. apply negb_true_iff, Z.eqb_neq.
  apply (finished_transfer_leaves_active_list CompleteButton Examples.browser
           (Examples.backend "driver@example.com")
           (Examples.transfer 8 confirmed (Some "drv-1")) Examples.listed
           {| user_email := "driver@example.com" |} "drv-1");
    [discriminate | reflexivity | reflexivity | reflexivity | reflexivity
    | exact Hin].
Defined.

(** After an accept that went through, a refresh of the active list that
    resolves the same driver and reads the table shows every persisted
    row with the identifier, confirmed and assigned to the caller. *)
Theorem accepted_transfer_is_listed_after_refresh (br : Browser) (b : Backend)
  (transferId : Z) (s : State) (user : User) (d : string)
  (r : AirportTransfer) :
  session b = Some user ->
  driverByEmailEq b (user_email user) = Data d ->
  driverByEmailIlike b (user_email user) = Data (Some d) ->
  select_fails b airport_transfer_table = false ->
  update_denied b (airport_transfer b) transferId (acceptPatch d) = false ->
  In r (airport_transfer b) -> id r = transferId ->
  let s' := snd (thenRefresh false br (handleAccept b transferId s)) in
  In (applyPatch (acceptPatch d) r) (transfers s')
  /\ (forall t', In t' (transfers s') -> id t' = transferId ->
        status t' = confirmed /\ driver_id t' = Some d).
Proof.
  intros Hs Heq Hd Hsel Hok Hr Hid s'. subst s'.
  rewrite (handleAccept_resolved b transferId s user d Hs Heq), Hok.
  destruct (update_done b transferId (acceptPatch d) Hok) as [_ Hrows].
  destruct (update_keeps_policy b transferId (acceptPatch d))
    as (_ & Hf' & Hs' & Hd' & _).
  set (b' := fst (update b transferId (acceptPatch d))) in *.
  cbn [thenRefresh snd].
  assert (Hres : driverByEmailIlike b' (user_email user) = Data (Some d)).
  { unfold driverByEmailIlike in *. now rewrite Hd', Hf'. }
  rewrite <- Hs' in Hs. rewrite <- Hf' in Hsel.
  match goal with
  | |- context [fetchAirportTransfers false br b' ?s1] =>
      destruct (fetch_lists_drivers_rows false br b' s1 user d
                  Hs Hres Hsel) as [Hiff _]
  end.
  split.
  - apply Hiff. rewrite Hrows.
    split; [now apply patched_rows_present|].
    split; [reflexivity | simpl; tauto].
  - intros t' Hin Ht'. apply Hiff in Hin as (Hrow & _). rewrite Hrows in Hrow.
    destruct (patched_rows transferId (acceptPatch d) _ t' Hrow Ht') as [H1 H2].
    split; [exact H1 | now apply H2].
Qed.

Lemma accepted_transfer_is_listed_after_refresh_witness :
  In (applyPatch (acceptPatch "drv-1")
        (Examples.transfer 7 pending (Some "drv-1")))
    (transfers
       (snd (thenRefresh false Examples.browser
               (handleAccept (Examples.backend "Driver@Example.com") 7
                  Examples.listed)))).
Proof.
  destruct (accepted_transfer_is_listed_after_refresh Examples.browser
              (Examples.backend "Driver@Example.com") 7 Examples.listed
              {| user_email := "Driver@Example.com" |} "drv-1"
              (Examples.transfer 7 pending (Some "drv-1"))
              eq_refl eq_refl eq_refl eq_refl eq_refl
              (or_introl eq_refl) eq_refl) as [Hin _].
  exact Hin.
Defined.

End PanelFacts.

(** * Further properties of the messaging adapter *)

Module AdapterMoreFacts.

Import SendWhatsapp.

(** ** Trimming *)

Lemma trimStart_starts (s : string) :
  JsString.startsWithSpace (Js.trimStart s) = false.
Proof.
  induction s as [|c s IH]; simpl; [reflexivity|].
  destruct (Js.is_white_space c) eqn:E; [exact IH | simpl; exact E].
Qed.

Lemma trimStart_fixed (s : string) :
  JsString.startsWithSpace s = false -> Js.trimStart s = s.
Proof. destruct s as [|c s]; simpl; [reflexivity | now intros ->]. Qed.

Lemma trimEnd_starts (s : string) :
  JsString.startsWithSpace s = false ->
  JsString.startsWithSpace (Js.trimEnd s) = false.
Proof.
  destruct s as [|c s]; simpl; [reflexivity|]. intro H. now rewrite H.
Qed.

Lemma trimEnd_ends (s : string) :
  JsString.endsWithSpace (Js.trimEnd s) = false.
Proof.
  induction s as [|c s IH]; simpl; [reflexivity|].
  destruct (Js.is_white_space c) eqn:E; simpl.
  - destruct (Js.trimEnd s) as [|d r] eqn:Er; simpl; [reflexivity|].
    exact IH.
  - destruct (Js.trimEnd s) as [|d r] eqn:Er; simpl; [exact E | exact IH].
Qed.

Lemma trimEnd_fixed (s : string) : Js.trimEnd (Js.trimEnd s) = Js.trimEnd s.
Proof.
  induction s as [|c s IH]; simpl; [reflexivity|].
  destruct (Js.is_white_space c && (Js.trimEnd s =? "")%string) eqn:E;
    [reflexivity|].
  simpl. now rewrite IH, E.
Qed.

Lemma trim_fixed (s : string) : Js.trim (Js.trim s) = Js.trim s.
Proof.
  unfold Js.trim.
  rewrite (trimStart_fixed (Js.trimEnd (Js.trimStart s))).
  - apply trimEnd_fixed.
  - apply trimEnd_starts, trimStart_starts.
Qed.

(** Whatever the target is, as long as it is not an array, the target sent
    to the gateway neither begins nor ends with white space, and
    normalising it once more changes nothing. *)
Theorem scalar_target_has_no_outer_space (target : JsValue) :
  (forall items, target <> Some (JArr items)) ->
  JsString.startsWithSpace (formattedTarget target) = false
  /\ JsString.endsWithSpace (formattedTarget target) = false
  /\ formattedTarget (Some (JStr (formattedTarget target)))
     = formattedTarget target.
Proof.
  intro Harr.
  assert (H : exists s, formattedTarget target = Js.trim s).
  { destruct target as [[|b|r|s|items|fields]|]; simpl; eauto.
    now destruct (Harr items). }
  destruct H as [s ->]. split; [|split].
  - apply trimEnd_starts, trimStart_starts.
  - apply trimEnd_ends.
  - rewrite AdapterFacts.formattedTarget_string. apply trim_fixed.
Qed.

Lemma scalar_target_has_no_outer_space_witness :
  JsString.startsWithSpace (formattedTarget (Some (JStr "  628111 "))) = false
  /\ JsString.endsWithSpace (formattedTarget (Some (JStr "  628111 "))) = false.
Proof.
  destruct (scalar_target_has_no_outer_space (Some (JStr "  628111 ")))
    as (Hs & He & _); [discriminate|].
  split; assumption.
Defined.

(** ** Calls of the gateway *)


(** The handler calls the gateway at most once per request, and not at all
    for a preflight, for a body that cannot be read and for a [null]
    body.  Every call is a POST to the send endpoint with a form body of
    exactly [target] and [message]; the [Authorization] header is the
    configured token, or the empty string when none is configured: a
    missing token does not stop the call. *)
Theorem gateway_called_at_most_once (env : Env) (req : Request) :
  (List.length (fst (serve env req)) <= 1)%nat
  /\ ((method req =? "OPTIONS")%string = true -> fst (serve env req) = [])
  /\ (forall e, json req = inl e -> fst (serve env req) = [])
  /\ (json req = inr JNull -> fst (serve env req) = [])
  /\ (forall out, In out (fst (serve env req)) ->
        url out = "https://api.fonnte.com/send"
        /\ fetch_method out = "POST"
        /\ param "Authorization" (fetch_headers out)
           = Some (match FONNTE_TOKEN env with Some t => t | None => "" end)
        /\ param "Content-Type" (fetch_headers out)
           = Some "application/x-www-form-urlencoded"
        /\ map fst (form out) = [ "target"; "message" ]).
Proof.
  unfold serve.
  destruct (method req =? "OPTIONS")%string.
  { simpl. repeat split; try reflexivity; try lia; intros; contradiction. }
  destruct (json req) as [e|v].
  { simpl. repeat split; try reflexivity; try lia; intros;
      try discriminate; contradiction. }
  destruct (destructure v) as [e|[target message]] eqn:Hd.
  { simpl. repeat split; try reflexivity; try lia; intros;
      try discriminate; contradiction. }
  assert (Hv : v <> JNull) by (intros ->; discriminate).
  assert (Hout : fst (match fetch env
                              (sendRequest (FONNTE_TOKEN env) target message)
                      with
                      | inl e =>
                          ([sendRequest (FONNTE_TOKEN env) target message],
                           errorResponse e)
                      | inr r =>
                          match up_text r with
                          | inl e =>
                              ([sendRequest (FONNTE_TOKEN env) target message],
                               errorResponse e)
                          | inr raw =>
                              ([sendRequest (FONNTE_TOKEN env) target message],
                               {| status := 200;
                                  headers :=
                                    [ ("Access-Control-Allow-Origin", "*");
                                      ("Content-Type", "application/json") ];
                                  body := Stringify (envelope env r raw) |})
                          end
                      end)
                 = [sendRequest (FONNTE_TOKEN env) target message]).
  { destruct (fetch env _) as [e|r]; [reflexivity|].
    destruct (up_text r); reflexivity. }
  rewrite Hout. simpl. split; [lia|].
  split; [discriminate|]. split; [discriminate|].
  split; [intros [= ->]; now destruct Hv|].
  intros out [<- | []]. simpl. destruct (FONNTE_TOKEN env); repeat split.
Qed.

Lemma gateway_called_at_most_once_witness :
  fst (serve Examples.gatewayUp Examples.postGarbage) = []
  /\ Forall (fun out => fetch_method out = "POST")
       (fst (serve Examples.gatewayDown (Examples.sendTo Examples.twoNumbers))).
Proof.
  split.
  - destruct (gateway_called_at_most_once Examples.gatewayUp
                Examples.postGarbage) as (_ & _ & Hbad & _).
    apply (Hbad "SyntaxError: Unexpected token"). reflexivity.
  - destruct (gateway_called_at_most_once Examples.gatewayDown
                (Examples.sendTo Examples.twoNumbers)) as (_ & _ & _ & _ & Hout).
    apply Forall_forall. intros out Hin. now destruct (Hout out Hin) as (_ & H & _).
Defined.



(** Every response, the preflight answer and the error envelope included,
    carries [Access-Control-Allow-Origin: *]; the preflight answer is the
    text "ok" with the allowed methods and headers, and every other
    response declares a JSON body. *)
Theorem every_response_allows_any_origin (env : Env) (req : Request) :
  param "Access-Control-Allow-Origin" (headers (snd (serve env req)))
  = Some "*"
  /\ ((method req =? "OPTIONS")%string = true ->
      body (snd (serve env req)) = Text "ok"
      /\ param "Access-Control-Allow-Methods" (headers (snd (serve env req)))
         = Some "POST, GET, OPTIONS")
  /\ ((method req =? "OPTIONS")%string = false ->
      param "Content-Type" (headers (snd (serve env req)))
      = Some "application/json"
      /\ exists v, body (snd (serve env req)) = Stringify v).
Proof.
  unfold serve. destruct (method req =? "OPTIONS")%string.
  { simpl. repeat split; discriminate. }
  destruct (json req) as [e|v].
  { simpl. repeat split; try discriminate. eauto. }
  destruct (destructure v) as [e|[target message]].
  { simpl. repeat split; try discriminate. eauto. }
  destruct (fetch env _) as [e|r].
  { simpl. repeat split; try discriminate. eauto. }
  destruct (up_text r); simpl; repeat split; try discriminate; eauto.
Qed.

Lemma every_response_allows_any_origin_witness :
  body (snd (serve Examples.gatewayDown
               {| method := "OPTIONS"; json := inl "no body" |}))
  = Text "ok".
Proof.
  destruct (every_response_allows_any_origin Examples.gatewayDown
              {| method := "OPTIONS"; json := inl "no body" |})
    as (_ & Hpre & _).
  now destruct (Hpre eq_refl).
Defined.

End AdapterMoreFacts.

(** * Properties of the transaction history *)

Module HistoryFacts.

Import TransactionHistory.

(** ** Pages *)

(** A page with a positive number is a chunk of the list. *)
Lemma page_is_chunk {A : Type} (l : list A) (currentPage rowsPerPage : Z) :
  0 < rowsPerPage -> 1 <= currentPage ->
  paginatedTransactions l currentPage rowsPerPage
  = firstn (Z.to_nat rowsPerPage)
      (skipn (Z.to_nat (currentPage - 1) * Z.to_nat rowsPerPage)%nat l).
Proof.
  intros Hr Hp. unfold paginatedTransactions, slice, endIndex, startIndex.
  set (len := Z.of_nat (List.length l)).
  set (start := (currentPage - 1) * rowsPerPage).
  assert (Hstart : 0 <= start) by (subst start; nia).
  assert (Hnat : (Z.to_nat (currentPage - 1) * Z.to_nat rowsPerPage)%nat
                 = Z.to_nat start).
  { subst start. rewrite Z2Nat.inj_mul by lia. reflexivity. }
  rewrite Hnat.
  destruct (Z.ltb_spec start 0) as [|_]; [lia|].
  destruct (Z.ltb_spec (start + rowsPerPage) 0) as [|_]; [lia|].
  destruct (Z.le_gt_cases start len) as [Hin | Hout].
  - rewrite (Z.min_l start len Hin).
    destruct (Z.le_gt_cases (start + rowsPerPage) len) as [Hfull | Hpart].
    + rewrite (Z.min_l _ _ Hfull). f_equal. lia.
    + rewrite (Z.min_r (start + rowsPerPage) len) by lia.
      rewrite !firstn_all2; [reflexivity | |];
        rewrite length_skipn; subst len; lia.
  - rewrite (Z.min_r start len) by lia.
    rewrite (skipn_all2 (n := Z.to_nat start)) by (subst len; lia).
    rewrite (skipn_all2 (n := Z.to_nat len)) by (subst len; lia).
    now rewrite !firstn_nil.
Qed.

(** Chunks of [r] elements, enough of them, make up the list. *)
Lemma chunks_make_list {A : Type} (r : nat) (n : nat) (l : list A) :
  (List.length l <= n * r)%nat ->
  List.concat (map (fun p => firstn r (skipn (p * r)%nat l)) (seq 0 n)) = l.
Proof.
  revert l. induction n as [|n IH]; intros l Hlen.
  - destruct l; [reflexivity | simpl in Hlen; lia].
  - cbn [seq map List.concat]. rewrite <- seq_shift, map_map.
    rewrite (map_ext (fun p => firstn r (skipn (S p * r)%nat l))
               (fun p => firstn r (skipn (p * r)%nat (skipn r l)))).
    + rewrite IH; [apply firstn_skipn|]. rewrite length_skipn. lia.
    + intro p. rewrite skipn_skipn. f_equal. f_equal. lia.
Qed.

Lemma totalPages_covers {A : Type} (l : list A) (rowsPerPage : Z) :
  0 < rowsPerPage ->
  0 <= totalPages l rowsPerPage
  /\ rowsPerPage * (totalPages l rowsPerPage - 1) < Z.of_nat (List.length l)
     <= rowsPerPage * totalPages l rowsPerPage.
Proof.
  intro Hr. unfold totalPages.
  pose proof (WorkflowFacts.ceil_div_spec (Z.of_nat (List.length l))
                rowsPerPage Hr) as H.
  split; [nia | exact H].
Qed.

(** The pages 1 to [totalPages], one after the other, are the filtered
    list: no row is lost and none is shown twice. *)
Theorem pages_partition_the_list {A : Type} (l : list A) (rowsPerPage : Z) :
  0 < rowsPerPage ->
  List.concat (map (fun p => paginatedTransactions l (Z.of_nat p) rowsPerPage)
            (seq 1 (Z.to_nat (totalPages l rowsPerPage))))
  = l.
Proof.
  intro Hr. destruct (totalPages_covers l rowsPerPage Hr) as [Hnn [_ Hcov]].
  rewrite <- seq_shift, map_map.
  rewrite (map_ext (fun p => paginatedTransactions l (Z.of_nat (S p)) rowsPerPage)
             (fun p => firstn (Z.to_nat rowsPerPage)
                         (skipn (p * Z.to_nat rowsPerPage)%nat l))).
  - apply chunks_make_list. nia.
  - intro p. rewrite page_is_chunk by lia. f_equal. f_equal. f_equal. lia.
Qed.

Lemma pages_partition_the_list_witness :
  List.concat (map (fun p => paginatedTransactions [ 1; 2; 3; 4; 5; 6; 7 ]
                          (Z.of_nat p) 3)
            (seq 1 (Z.to_nat (totalPages [ 1; 2; 3; 4; 5; 6; 7 ] 3))))
  = [ 1; 2; 3; 4; 5; 6; 7 ].
Proof. apply pages_partition_the_list. reflexivity. Defined.

Lemma page_length {A : Type} (l : list A) (currentPage rowsPerPage : Z) :
  0 < rowsPerPage -> 1 <= currentPage ->
  Z.of_nat (List.length (paginatedTransactions l currentPage rowsPerPage))
  = Z.max 0 (Z.min rowsPerPage
               (Z.of_nat (List.length l) - (currentPage - 1) * rowsPerPage)).
Proof.
  intros Hr Hp. rewrite page_is_chunk by assumption.
  rewrite length_firstn, length_skipn.
  assert (Z.of_nat (Z.to_nat (currentPage - 1) * Z.to_nat rowsPerPage)%nat
          = (currentPage - 1) * rowsPerPage) by nia.
  lia.
Qed.

(** Every page before the last holds exactly [rowsPerPage] rows, the last
    page holds between one row and [rowsPerPage] rows, and a page past the
    last is empty.  On a page that exists the range label "a-b" counts
    the rows shown. *)
Theorem page_sizes {A : Type} (l : list A) (currentPage rowsPerPage : Z) :
  0 < rowsPerPage -> 1 <= currentPage ->
  let page := paginatedTransactions l currentPage rowsPerPage in
  let total := totalPages l rowsPerPage in
  (currentPage < total -> Z.of_nat (List.length page) = rowsPerPage)
  /\ (currentPage = total ->
      1 <= Z.of_nat (List.length page) <= rowsPerPage)
  /\ (total < currentPage -> page = [])
  /\ (currentPage <= total ->
      snd (rangeLabel l currentPage rowsPerPage)
      - fst (rangeLabel l currentPage rowsPerPage) + 1
      = Z.of_nat (List.length page)).
Proof.
  intros Hr Hp page total. subst page total.
  pose proof (page_length l currentPage rowsPerPage Hr Hp) as Hlen.
  destruct (totalPages_covers l rowsPerPage Hr) as [Hnn [Hlo Hhi]].
  set (total := totalPages l rowsPerPage) in *.
  set (len := Z.of_nat (List.length l)) in *.
  split; [|split; [|split]].
  - intro H. rewrite Hlen. nia.
  - intro H. rewrite Hlen. subst currentPage. nia.
  - intro H. apply length_zero_iff_nil.
    assert (Z.of_nat (List.length
                        (paginatedTransactions l currentPage rowsPerPage)) = 0)
      by (rewrite Hlen; nia).
    lia.
  - intro H. unfold rangeLabel, endIndex, startIndex. cbn [fst snd].
    fold len. rewrite Hlen. nia.
Qed.

Lemma page_sizes_witness :
  1 <= Z.of_nat (List.length (paginatedTransactions [ 1; 2; 3; 4; 5; 6; 7 ] 3 3))
    <= 3.
Proof.
  destruct (page_sizes [ 1; 2; 3; 4; 5; 6; 7 ] 3 3 eq_refl)
    as (_ & Hlast & _); [discriminate|].
  apply Hlast. reflexivity.
Defined.

(** ** Page buttons *)

(** For a current page that exists, the page buttons are consecutive page
    numbers, five of them or all pages when there are fewer; every number
    is a page that exists, and the current page is among them. *)
Theorem page_buttons_are_valid (currentPage total : Z) :
  1 <= currentPage <= total ->
  exists first,
    pageNumbers currentPage total
    = map (fun i => first + Z.of_nat i) (seq 0 (Z.to_nat (Z.min 5 total)))
    /\ 1 <= first
    /\ first + Z.min 5 total - 1 <= total
    /\ first <= currentPage <= first + Z.min 5 total - 1
    /\ Forall (fun n => 1 <= n <= total) (pageNumbers currentPage total)
    /\ In currentPage (pageNumbers currentPage total).
Proof.
  intro Hcur.
  assert (Hshape : exists first,
             (forall i, pageNum currentPage total i = first + i)
             /\ 1 <= first /\ first + Z.min 5 total - 1 <= total
             /\ first <= currentPage <= first + Z.min 5 total - 1).
  { unfold pageNum.
    destruct (Z.leb_spec total 5);
      [exists 1; repeat split; intros; lia|].
    destruct (Z.leb_spec currentPage 3);
      [exists 1; repeat split; intros; lia|].
    destruct (Z.leb_spec (total - 2) currentPage);
      [exists (total - 4) | exists (currentPage - 2)];
      repeat split; intros; lia. }
  destruct Hshape as (first & Hnum & H1 & H2 & H3).
  assert (Heq : pageNumbers currentPage total
                = map (fun i => first + Z.of_nat i)
                    (seq 0 (Z.to_nat (Z.min 5 total)))).
  { unfold pageNumbers. apply map_ext. intro i. apply Hnum. }
  exists first. split; [exact Heq|]. split; [exact H1|].
  split; [exact H2|]. split; [exact H3|]. rewrite Heq. split.
  - apply Forall_forall. intros n Hin. apply in_map_iff in Hin as (i & <- & Hi).
    apply in_seq in Hi. lia.
  - apply in_map_iff. exists (Z.to_nat (currentPage - first)).
    split; [lia|]. apply in_seq. lia.
Qed.

Lemma page_buttons_are_valid_witness :
  pageNumbers 9 10 = [ 6; 7; 8; 9; 10 ] /\ In 9 (pageNumbers 9 10).
Proof.
  destruct (page_buttons_are_valid 9 10) as (first & _ & _ & _ & _ & _ & Hin);
    [lia|].
  split; [reflexivity | exact Hin].
Defined.

(** ** Search and filter *)

Lemma includes_empty (s : string) : JsString.includes s "" = true.
Proof. destruct s; reflexivity. Qed.

Lemma toLowerCaseChar_fixed (c : ascii) :
  JsString.toLowerCaseChar (JsString.toLowerCaseChar c)
  = JsString.toLowerCaseChar c.
Proof. destruct c as [[] [] [] [] [] [] [] []]; reflexivity. Qed.

Lemma toLowerCase_fixed (s : string) :
  JsString.toLowerCase (JsString.toLowerCase s) = JsString.toLowerCase s.
Proof.
  induction s as [|c s IH]; simpl; [reflexivity|].
  now rewrite toLowerCaseChar_fixed, IH.
Qed.

(** With no query and the filter "all" the whole list is shown.  The
    search ignores the case of the query.  The filters "income" and
    "expense" never show the same transaction, and a transaction of amount
    zero is in neither. *)
Theorem search_and_filter_behaviour (transactions : list Formatted) :
  filteredTransactions transactions "" "all" = transactions
  /\ (forall q f,
        filteredTransactions transactions (JsString.toLowerCase q) f
        = filteredTransactions transactions q f)
  /\ (forall q t,
        In t (filteredTransactions transactions q "income") ->
        In t (filteredTransactions transactions q "expense") -> False)
  /\ (forall q t,
        nominal t = 0 ->
        ~ In t (filteredTransactions transactions q "income")
        /\ ~ In t (filteredTransactions transactions q "expense")).
Proof.
  split; [|split; [|split]].
  - unfold filteredTransactions. apply AdapterFacts.filter_keeps_all.
    apply forallb_forall. intros t _. unfold matchesSearch, matchesFilter.
    simpl JsString.toLowerCase. now rewrite includes_empty.
  - intros q f. unfold filteredTransactions. apply filter_ext. intro t.
    unfold matchesSearch. now rewrite toLowerCase_fixed.
  - intros q t Hin Hex. unfold filteredTransactions in *.
    apply filter_In in Hin as [_ Hin]. apply filter_In in Hex as [_ Hex].
    apply andb_true_iff in Hin as [_ Hin]. apply andb_true_iff in Hex as [_ Hex].
    unfold matchesFilter in *. simpl in Hin, Hex.
    repeat rewrite orb_false_r in Hin. repeat rewrite orb_false_r in Hex.
    apply Z.ltb_lt in Hin. apply Z.ltb_lt in Hex. lia.
  - intros q t Hzero. unfold filteredTransactions.
    split; intro Hin; apply filter_In in Hin as [_ Hin];
      apply andb_true_iff in Hin as [_ Hin]; unfold matchesFilter in Hin;
      simpl in Hin; repeat rewrite orb_false_r in Hin;
      apply Z.ltb_lt in Hin; lia.
Qed.

Lemma search_and_filter_behaviour_witness :
  ~ In MoreExamples.voidedPayment
      (filteredTransactions [ MoreExamples.voidedPayment ] "" "expense").
Proof.
  destruct (search_and_filter_behaviour [ MoreExamples.voidedPayment ])
    as (_ & _ & _ & Hzero).
  now destruct (Hzero "" MoreExamples.voidedPayment eq_refl).
Defined.

(** ** Fetching the history *)

Lemma textOr_filled (v : option string) (d : string) :
  d <> "" -> textOr v d <> "".
Proof.
  intro Hd. destruct v as [s|]; simpl; [|exact Hd].
  unfold JsString.orElse. destruct (String.eqb_spec s ""); assumption.
Qed.

(** When the [userId] prop is set, the history of that user is fetched
    whoever is signed in.  The rows that come back are shown one for one,
    in the order of the answer, and no entry has a blank booking code,
    type, description, status or payment method: [null] and empty columns
    are replaced by their defaults, and a [null] amount counts as zero.
    The error text is left as it was. *)
Theorem fetched_history_is_defaulted (now : Z) (parse : string -> option Z)
  (userId : string) (sessionUserId : option string)
  (query : string -> Supabase.Reply (list HistoriRow)) (s : State)
  (rows : list HistoriRow) :
  userId <> "" ->
  query userId = Supabase.Data rows ->
  let s' := fetchTransactionHistory now parse (Some userId) sessionUserId
              query s in
  map id (transactions s') = map row_id rows
  /\ Forall (fun t =>
               code_booking t <> "" /\ jenis_transaksi t <> ""
               /\ keterangan t <> "" /\ status t <> ""
               /\ payment_method t <> "")
       (transactions s')
  /\ (forall r, In r rows -> row_nominal r = None ->
        exists t, In t (transactions s') /\ id t = row_id r /\ nominal t = 0)
  /\ loading s' = false
  /\ error s' = error s.
Proof.
  intros Hid Hq s'. subst s'. unfold fetchTransactionHistory.
  apply String.eqb_neq in Hid. rewrite Hid, Hq.
  assert (Hlist : transactions
                    match rows with
                    | [] => {| transactions := []; loading := false;
                               error := error s |}
                    | _ :: _ => {| transactions := map (format now parse) rows;
                                   loading := false; error := error s |}
                    end
                  = map (format now parse) rows)
    by (destruct rows; reflexivity).
  split; [|split; [|split; [|split]]].
  - rewrite Hlist, map_map. reflexivity.
  - rewrite Hlist. apply Forall_forall. intros t Hin.
    apply in_map_iff in Hin as (r & <- & _). simpl.
    repeat split; apply textOr_filled; discriminate.
  - intros r Hin Hnull. exists (format now parse r). rewrite Hlist.
    split; [now apply in_map|]. split; [reflexivity|].
    simpl. now rewrite Hnull.
  - destruct rows; reflexivity.
  - destruct rows; reflexivity.
Qed.

Lemma fetched_history_is_defaulted_witness :
  map id (transactions
            (fetchTransactionHistory 0 (fun _ => None) (Some "drv-1") None
               (fun _ => Supabase.Data [ MoreExamples.blankRow ])
               {| transactions := []; loading := true; error := None |}))
  = [ "h1" ].
Proof.
  destruct (fetched_history_is_defaulted 0 (fun _ => None) "drv-1" None
              (fun _ => Supabase.Data [ MoreExamples.blankRow ])
              {| transactions := []; loading := true; error := None |}
              [ MoreExamples.blankRow ]) as [Hids _];
    [discriminate | reflexivity | exact Hids].
Defined.



End HistoryFacts.

(** * Properties of the profile page *)

Module ProfileFacts.

Import ProfilePage.

(** The profile shown is the driver row when the drivers lookup answers,
    whatever the users table holds, and otherwise the users row.  The
    error text is set exactly when no identifier can be determined or
    both lookups fail, and then the profile on screen is the one from
    before; a fetch that succeeds clears the error.  [loading] is cleared
    on every path, and a non-empty [userId] prop is looked up without
    consulting the session. *)
Theorem profile_prefers_driver_row {Row : Type} (userId : option string)
  (b : Backend Row) (s : State Row) :
  let s' := fetchUserProfile userId b s in
  loading s' = false
  /\ (forall i row, resolveUserId userId b = Some i ->
        byId (drivers_fail b) (drivers b) i = Supabase.Data row ->
        user s' = Some row /\ error s' = None)
  /\ (forall i row, resolveUserId userId b = Some i ->
        byId (drivers_fail b) (drivers b) i = Supabase.Error ->
        byId (users_fail b) (users b) i = Supabase.Data row ->
        user s' = Some row /\ error s' = None)
  /\ (error s' = Some "Failed to load user profile"
      <-> resolveUserId userId b = None
          \/ exists i, resolveUserId userId b = Some i
                       /\ byId (drivers_fail b) (drivers b) i = Supabase.Error
                       /\ byId (users_fail b) (users b) i = Supabase.Error)
  /\ (error s' <> None -> user s' = user s)
  /\ (forall i, userId = Some i -> i <> "" -> resolveUserId userId b = Some i).
Proof.
  intro s'. subst s'. unfold fetchUserProfile.
  split; [|split; [|split; [|split; [|split]]]].
  - destruct (resolveUserId userId b) as [i|]; [|reflexivity].
    destruct (byId (drivers_fail b) (drivers b) i); [reflexivity|].
    destruct (byId (users_fail b) (users b) i); reflexivity.
  - intros i row -> ->. split; reflexivity.
  - intros i row -> -> ->. split; reflexivity.
  - destruct (resolveUserId userId b) as [i|]; [|simpl; tauto].
    destruct (byId (drivers_fail b) (drivers b) i) as [row|] eqn:Hd.
    + simpl. split; [discriminate|].
      intros [H | (j & [= <-] & H & _)]; congruence.
    + destruct (byId (users_fail b) (users b) i) as [row|] eqn:Hu; simpl.
      * split; [discriminate|].
        intros [H | (j & [= <-] & _ & H)]; congruence.
      * split; [|reflexivity]. intros _. right. now exists i.
  - destruct (resolveUserId userId b) as [i|]; [|reflexivity].
    destruct (byId (drivers_fail b) (drivers b) i);
      [simpl; intro H; now destruct H|].
    destruct (byId (users_fail b) (users b) i);
      [simpl; intro H; now destruct H | reflexivity].
  - intros i -> Hi. unfold resolveUserId. apply String.eqb_neq in Hi.
    now rewrite Hi.
Qed.

Lemma profile_prefers_driver_row_witness :
  user (fetchUserProfile None MoreExamples.profiles
          {| user := None; loading := true; error := None |})
  = Some "driver row of u1".
Proof.
  destruct (profile_prefers_driver_row None MoreExamples.profiles
              {| user := None; loading := true; error := None |})
    as (_ & Hdriver & _).
  now destruct (Hdriver "u1" "driver row of u1" eq_refl eq_refl).
Defined.

End ProfileFacts.
